(** * Daily_ngram: the time-series pipeline of [app.py]

    A shallow embedding of the functions of [src/app.py] that fetch,
    normalise, window and smooth newspaper word counts ([sumword], [ngram],
    [adjust]) and of the two callbacks that drive them ([update_data],
    [update_chart]), together with the properties the specification states
    about them.  The remaining pure functions of the file
    ([toggle_sidebar], [update_date_from_year], [make_nb_query]) follow, with
    further properties of all of them.

    The program is a thin layer over pandas.  The embedding follows the
    calls of the source one by one: every pandas call is an operation of a
    small state-and-exception monad over a store of objects, so that
    copies, in-place assignments ([res.loc[...] = pd.NA]) and the
    [try ... except AttributeError] of the source keep their meaning.

    Conventions of the model.
    - A [Timestamp] is a number of nanoseconds since 1970-01-01T00:00, a
      [Date] a number of days since 1970-01-01; both are unbounded integers
      (the 64-bit range of pandas is not modelled).
    - A cell is a float64: a number, an infinity or NaN.  Numbers are exact
      rationals; an integer column and the float column with the same values
      are the same column.
    - The row labels of every frame are timestamps (the adapter's date
      labels are read as the timestamps [pd.Timestamp] maps them to), and row
      labels and column labels are used as pandas uses them when they are
      unique.  [sort_index] is a stable sort.
    - The corpus adapter is a function of the request; the requests made
      are recorded in the state.
    - The JSON text kept between the two callbacks is represented by the
      frame it encodes.
    - A string is the sequence of the bytes of its UTF-8 encoding, which is
      what [urlencode] quotes.  A [datetime] built from a date text is the
      calendar date it holds (its time of day is midnight); the parser
      [strptime] is a function of the text. *)

From Stdlib Require Import ZArith QArith Qcanon Lia.
From stdpp Require Import base numbers list strings sorting.

Local Open Scope Z_scope.

(** ** Calendar *)

Module Calendar.

Abbreviation Date := Z.
Abbreviation Timestamp := Z.

Definition ns_per_day : Z := 86400000000000.

(** Day number of a civil date of the proleptic Gregorian calendar. *)
Definition days_from_civil (y m d : Z) : Date :=
  let y' := if m <=? 2 then y - 1 else y in
  let era := y' / 400 in
  let yoe := y' - era * 400 in
  let mp := if 2 <? m then m - 3 else m + 9 in
  let doy := (153 * mp + 2) / 5 + d - 1 in
  let doe := yoe * 365 + yoe / 4 - yoe / 100 + doy in
  era * 146097 + doe - 719468.

(** [pd.Timestamp(date)]: midnight of a date. *)
Definition Timestamp_of_date (d : Date) : Timestamp := d * ns_per_day.

(** [pd.Timestamp("yyyymmdd")]. *)
Definition Timestamp_ymd (y m d : Z) : Timestamp :=
  Timestamp_of_date (days_from_civil y m d).

(** [pd.Timedelta(days=n)]. *)
Definition Timedelta_days (n : Z) : Z := n * ns_per_day.

(** [Timestamp.dayofweek]: Monday is 0 and Sunday is 6; 1970-01-01 was a
    Thursday. *)
Definition dayofweek (t : Timestamp) : Z := (t / ns_per_day + 3) mod 7.

End Calendar.
Export Calendar.

(** ** Cells, frames and series *)

Inductive cell :=
  | NaN
  | Inf (negative : bool)
  | Num (q : Qc).

Global Instance cell_eq_dec : EqDecision cell.
Proof. solve_decision. Defined.

Abbreviation row := (Timestamp * list cell)%type.

(** A DataFrame: its column labels and its rows, each row a label of the
    index and one cell per column. *)
Record DataFrame := mkDataFrame {
  columns : list string;
  rows : list row
}.

Global Instance DataFrame_eq_dec : EqDecision DataFrame.
Proof. solve_decision. Defined.

Definition index (f : DataFrame) : list Timestamp := (rows f).*1.

(** [pd.DataFrame()]. *)
Definition empty_frame : DataFrame := mkDataFrame [] [].

Record Series := mkSeries {
  name : string;
  values : list (Timestamp * cell)
}.

Global Instance Series_eq_dec : EqDecision Series.
Proof. solve_decision. Defined.

(** Every row has one cell per column. *)
Definition well_formed (f : DataFrame) : Prop :=
  Forall (λ r : row, length r.2 = length (columns f)) (rows f).

(** No cell of the frame is an infinity. *)
Definition no_inf (c : cell) : Prop := ∀ b, c ≠ Inf b.
Definition finite_frame (f : DataFrame) : Prop :=
  Forall (λ r : row, Forall no_inf r.2) (rows f).

(** ** Float arithmetic on cells *)

Definition is_nan (c : cell) : bool :=
  match c with NaN => true | _ => false end.

Definition cell_add (a b : cell) : cell :=
  match a, b with
  | NaN, _ | _, NaN => NaN
  | Inf s, Inf s' => if Bool.eqb s s' then Inf s else NaN
  | Inf s, Num _ | Num _, Inf s => Inf s
  | Num x, Num y => Num (x + y)%Qc
  end.

Definition Qc_negative (q : Qc) : bool := bool_decide (q < 0)%Qc.

(** True division of floats, [a / b]: a zero divisor gives an infinity, or
    NaN when the dividend is zero too. *)
Definition cell_div (a b : cell) : cell :=
  match a, b with
  | NaN, _ | _, NaN => NaN
  | Inf _, Inf _ => NaN
  | Inf s, Num y => Inf (xorb s (Qc_negative y))
  | Num x, Inf _ => Num 0%Qc
  | Num x, Num y =>
      if decide (y = 0%Qc)
      then (if decide (x = 0%Qc) then NaN else Inf (Qc_negative x))
      else Num (x / y)%Qc
  end.

(** Truncation of a rational toward zero. *)
Definition trunc (q : Qc) : Z := Z.quot (Qnum q) (Z.pos (Qden q)).

(** ** pandas on frame values *)

(** [df.fillna(v)]. *)
Definition fillna_cell (v : Qc) (c : cell) : cell :=
  match c with NaN => Num v | _ => c end.

Definition map_cells (g : cell → cell) (f : DataFrame) : DataFrame :=
  mkDataFrame (columns f) (map (λ r : row, (r.1, map g r.2)) (rows f)).

Definition frame_fillna (v : Qc) (f : DataFrame) : DataFrame :=
  map_cells (fillna_cell v) f.

(** [x.astype(int)] on one value: truncates toward zero; pandas refuses
    NaN and the infinities. *)
Definition astype_int_cell (c : cell) : option cell :=
  match c with
  | Num q => Some (Num (Qc_of_Z (trunc q)))
  | _ => None
  end.

Definition astype_int_row (r : row) : option row :=
  cs ← mapM astype_int_cell r.2; Some (r.1, cs).

Definition frame_astype_int (f : DataFrame) : option DataFrame :=
  rs ← mapM astype_int_row (rows f); Some (mkDataFrame (columns f) rs).

(** [df.loc[mask]] with a boolean array: the rows at the positions where the
    mask holds. *)
Fixpoint select_rows {A} (mask : list bool) (l : list A) : list A :=
  match mask, l with
  | b :: mask', x :: l' =>
      if b then x :: select_rows mask' l' else select_rows mask' l'
  | _, _ => []
  end.

(** [df.loc[mask] = pd.NA]: every cell of the rows where the mask holds
    becomes missing. *)
Fixpoint null_rows (mask : list bool) (l : list row) : list row :=
  match mask, l with
  | b :: mask', r :: l' =>
      (if b then (r.1, map (λ _, NaN) r.2) else r) :: null_rows mask' l'
  | _, _ => l
  end.

(** The cells of the column at position [j], top to bottom. *)
Definition column_at (j : nat) (rs : list row) : list cell :=
  map (λ r : row, default NaN (r.2 !! j)) rs.

(** The [w] entries that end at position [i] (fewer at the top). *)
Definition window_at {A} (w i : nat) (l : list A) : list A :=
  drop (S i - w) (take (S i) l).

(** The mean of the observations (the entries that are not NaN) of a
    window, NaN when there are fewer than [min_periods] of them. *)
Definition observations (win : list cell) : list cell :=
  filter (λ c, is_nan c = false) win.

Definition window_mean (min_periods : nat) (win : list cell) : cell :=
  let obs := observations win in
  if decide (length obs < min_periods)%nat then NaN
  else match obs with
       | [] => NaN
       | _ => cell_div (foldr cell_add (Num 0%Qc) obs)
                       (Num (Qc_of_Z (Z.of_nat (length obs))))
       end.

(** [df.rolling(window=w, min_periods=m).mean()] on the rows of a frame. *)
Definition rolling_mean_rows (w min_periods : nat) (rs : list row) : list row :=
  imap (λ i (r : row),
          (r.1, imap (λ j _, window_mean min_periods
                               (window_at w i (column_at j rs))) r.2)) rs.

(** [df.sort_index()]. *)
Definition row_le (r1 r2 : row) : Prop := r1.1 ≤ r2.1.
Global Instance row_le_dec : RelDecision row_le.
Proof. intros r1 r2. unfold row_le. apply _. Defined.

Definition sort_rows (rs : list row) : list row := merge_sort row_le rs.

(** [df.sum(axis=1)] on one row: NaN is skipped, an empty row sums to 0. *)
Definition row_sum (cs : list cell) : cell :=
  foldr cell_add (Num 0%Qc) (observations cs).

(** ** Strings *)

(** [s.split(',')]. *)
Fixpoint split_comma (s : string) : list string :=
  match s with
  | EmptyString => [EmptyString]
  | String c s' =>
      if Ascii.eqb c (Ascii.ascii_of_nat 44) then EmptyString :: split_comma s'
      else match split_comma s' with
           | [] => [String c EmptyString]
           | w :: ws => String c w :: ws
           end
  end.

(** The ASCII characters [str.strip()] removes. *)
Definition is_whitespace (c : Ascii.ascii) : bool :=
  let n := Ascii.nat_of_ascii c in
  ((9 <=? n) && (n <=? 13) || (28 <=? n) && (n <=? 32))%nat.

Fixpoint lstrip (s : string) : string :=
  match s with
  | EmptyString => EmptyString
  | String c s' => if is_whitespace c then lstrip s' else s
  end.

(** [s.strip()]. *)
Definition strip (s : string) : string :=
  String.rev (lstrip (String.rev (lstrip s))).

(** ** The store, exceptions and the monad of the program *)

Inductive exn :=
  | AttributeError
  | ValueError
  | TypeError
  | KeyError
  | IndexError
  | OtherError (what : string).

Global Instance exn_eq_dec : EqDecision exn.
Proof. solve_decision. Defined.

Inductive outcome (A : Type) :=
  | Ret (a : A)
  | Raise (e : exn).
Arguments Ret {A} a.
Arguments Raise {A} e.

(** What a reference can point to: a DataFrame, a Series, or an object that
    is neither (such as [None]). *)
Inductive object :=
  | OFrame (f : DataFrame)
  | OSeries (s : Series)
  | ONone.

Global Instance object_eq_dec : EqDecision object.
Proof. solve_decision. Defined.

Global Instance outcome_eq_dec `{EqDecision A} : EqDecision (outcome A).
Proof. solve_decision. Defined.

Abbreviation loc := nat.

(** A request to the corpus adapter [api.ngram_news]. *)
Record call := mkCall {
  call_words : list string;
  call_period : Date * Date;
  call_title : option string
}.

Global Instance call_eq_dec : EqDecision call.
Proof. solve_decision. Defined.

(** The state the program runs in: the objects allocated so far, the
    reading of the clock, and the requests made to the adapter. *)
Record world := mkWorld {
  heap : list object;
  now : Timestamp;
  calls : list call
}.

Global Instance world_eq_dec : EqDecision world.
Proof. solve_decision. Defined.

Definition M (A : Type) : Type := world → outcome A * world.

Definition ret {A} (a : A) : M A := λ w, (Ret a, w).

Definition bind {A B} (m : M A) (k : A → M B) : M B :=
  λ w, match m w with
       | (Ret a, w') => k a w'
       | (Raise e, w') => (Raise e, w')
       end.

Definition raise {A} (e : exn) : M A := λ w, (Raise e, w).

(** [try: m  except e: h]. *)
Definition try_except {A} (m : M A) (e : exn) (h : M A) : M A :=
  λ w, match m w with
       | (Raise e', w') => if decide (e' = e) then h w' else (Raise e', w')
       | r => r
       end.

Global Instance M_ret : MRet M := @ret.
Global Instance M_bind : MBind M := λ A B k m, bind m k.

Definition alloc (o : object) : M loc :=
  λ w, (Ret (length (heap w)), mkWorld (heap w ++ [o]) (now w) (calls w)).

Definition store (r : loc) (o : object) : M unit :=
  λ w, (Ret tt, mkWorld (<[r := o]> (heap w)) (now w) (calls w)).

(** Reading a reference as a DataFrame; an attribute of a frame asked of
    another object raises [AttributeError]. *)
Definition get_frame (r : loc) : M DataFrame :=
  λ w, match heap w !! r with
       | Some (OFrame f) => (Ret f, w)
       | _ => (Raise AttributeError, w)
       end.

Definition get_series (r : loc) : M Series :=
  λ w, match heap w !! r with
       | Some (OSeries s) => (Ret s, w)
       | _ => (Raise AttributeError, w)
       end.

Definition get_object (r : loc) : M object :=
  λ w, (Ret (default ONone (heap w !! r)), w).

(** [pd.Timestamp.today()]. *)
Definition Timestamp_today : M Timestamp := λ w, (Ret (now w), w).

(** ** pandas calls *)

Module pd.

(** [pd.DataFrame()]. *)
Definition DataFrame_new : M loc := alloc (OFrame empty_frame).

(** [df.copy()]. *)
Definition copy (df : loc) : M loc :=
  f ← get_frame df; alloc (OFrame f).

(** [df.index >= s] and [df.index <= e]. *)
Definition index_ge (df : loc) (s : Timestamp) : M (list bool) :=
  f ← get_frame df; ret (map (λ t, bool_decide (s ≤ t)) (index f)).

Definition index_le (df : loc) (e : Timestamp) : M (list bool) :=
  f ← get_frame df; ret (map (λ t, bool_decide (t ≤ e)) (index f)).

(** [a & b] on boolean arrays. *)
Definition mask_and (a b : list bool) : list bool := zip_with andb a b.

(** [df.loc[mask]] with a boolean array: a new frame. *)
Definition loc_getitem (df : loc) (mask : list bool) : M loc :=
  f ← get_frame df;
  if decide (length mask = length (rows f))
  then alloc (OFrame (mkDataFrame (columns f) (select_rows mask (rows f))))
  else raise IndexError.

(** [df.index.dayofweek == d]. *)
Definition index_dayofweek_eq (df : loc) (d : Z) : M (list bool) :=
  f ← get_frame df; ret (map (λ t, bool_decide (dayofweek t = d)) (index f)).

(** [df.loc[mask] = pd.NA]: assignment in place. *)
Definition loc_setitem_NA (df : loc) (mask : list bool) : M unit :=
  f ← get_frame df;
  if decide (length mask = length (rows f))
  then store df (OFrame (mkDataFrame (columns f) (null_rows mask (rows f))))
  else raise IndexError.

(** [df.rolling(window=w, min_periods=m).mean()]: pandas refuses a
    negative window and a window smaller than [min_periods]. *)
Definition rolling_mean (df : loc) (window : Z) (min_periods : nat) : M loc :=
  f ← get_frame df;
  if decide (window < 0) then raise ValueError
  else if decide (window < Z.of_nat min_periods) then raise ValueError
  else alloc (OFrame (mkDataFrame (columns f)
                 (rolling_mean_rows (Z.to_nat window) min_periods (rows f)))).

(** [df.fillna(v)]: a new frame. *)
Definition fillna (df : loc) (v : Qc) : M loc :=
  f ← get_frame df; alloc (OFrame (frame_fillna v f)).

(** [df.apply(lambda x: x.astype(int))]: a new frame; [ValueError] when
    a value is NaN or infinite. *)
Definition apply_astype_int (df : loc) : M loc :=
  f ← get_frame df;
  match frame_astype_int f with
  | Some f' => alloc (OFrame f')
  | None => raise ValueError
  end.

(** [df.sort_index()]: a new frame. *)
Definition sort_index (df : loc) : M loc :=
  f ← get_frame df;
  alloc (OFrame (mkDataFrame (columns f) (sort_rows (rows f)))).

(** [df.index = df.index.map(pd.Timestamp)]: the labels are timestamps
    already. *)
Definition index_map_Timestamp (df : loc) : M unit :=
  f ← get_frame df; store df (OFrame f).

(** [pd.Series(df.sum(axis=1), name=n)]. *)
Definition sum_axis1_named (df : loc) (n : string) : M loc :=
  f ← get_frame df;
  alloc (OSeries (mkSeries n (map (λ r : row, (r.1, row_sum r.2)) (rows f)))).

(** [s.index = s.index.map(pd.Timestamp)]. *)
Definition series_index_map_Timestamp (s : loc) : M unit :=
  v ← get_series s; store s (OSeries v).

(** [list(df)]: the column labels. *)
Definition frame_columns (df : loc) : M (list string) :=
  f ← get_frame df; ret (columns f).

(** Position of a column label. *)
Definition column_position (x : string) (cols : list string) : option nat :=
  fst <$> list_find (λ y, y = x) cols.

(** [df[x]]: the column as a Series. *)
Definition getitem (df : loc) (x : string) : M loc :=
  f ← get_frame df;
  match column_position x (columns f) with
  | Some j => alloc (OSeries (mkSeries x
                (map (λ r : row, (r.1, default NaN (r.2 !! j))) (rows f))))
  | None => raise KeyError
  end.

(** The value of a series at a label, NaN where the label is absent. *)
Definition series_at (t : Timestamp) (vs : list (Timestamp * cell)) : cell :=
  match list_find (λ p : Timestamp * cell, p.1 = t) vs with
  | Some (_, (_, c)) => c
  | None => NaN
  end.

(** The index two series are aligned on: the common index when they
    agree, the sorted union otherwise. *)
Definition align_index (la lb : list Timestamp) : list Timestamp :=
  if decide (la = lb) then la
  else merge_sort Z.le (remove_dups (la ++ lb)).

(** [a / b] for two series: aligned on the labels, NaN where one side
    has no value. *)
Definition series_truediv (a b : Series) : Series :=
  mkSeries (if decide (name a = name b) then name a else EmptyString)
    (map (λ t, (t, cell_div (series_at t (values a)) (series_at t (values b))))
         (align_index (values a).*1 (values b).*1)).

(** [df[x] = s] for a series [s]: the column takes the values of [s] at
    the labels of the frame; a label that is not a column yet adds one. *)
Definition set_column (x : string) (s : Series) (f : DataFrame) : DataFrame :=
  match column_position x (columns f) with
  | Some j =>
      mkDataFrame (columns f)
        (map (λ r : row, (r.1, <[j := series_at r.1 (values s)]> r.2)) (rows f))
  | None =>
      mkDataFrame (columns f ++ [x])
        (map (λ r : row, (r.1, r.2 ++ [series_at r.1 (values s)])) (rows f))
  end.

End pd.

(** ** The program: [app.py] *)

Definition max_days : Z := 7400.
Definition min_days : Z := 3.

(** [adjust(df, date, days, smooth)], lines 71-84. *)
Definition adjust (df : loc) (date : Date) (days smooth : Z) : M loc :=
  res ← pd.copy df;
  res ← try_except
    (let ts := Timestamp_of_date date in
     let td := Timedelta_days (days - 1) in
     let s := Z.min (Timestamp_ymd 2021 7 1)
                    (ts - Timedelta_days (days + min_days)) in
     today ← Timestamp_today;
     let e := Z.min today (ts + td) in
     ge ← pd.index_ge df s;
     le ← pd.index_le df e;
     let mask := pd.mask_and ge le in
     res ← pd.loc_getitem res mask;
     sundays ← pd.index_dayofweek_eq res 6;
     pd.loc_setitem_NA res sundays;;
     pd.rolling_mean res smooth 1)
    AttributeError
    pd.DataFrame_new;
  res ← pd.fillna res 0%Qc;
  pd.apply_astype_int res.

(** The bounds of the window [adjust] keeps, as the code computes them. *)
Definition window_start (date : Date) (days : Z) : Timestamp :=
  Z.min (Timestamp_ymd 2021 7 1)
        (Timestamp_of_date date - Timedelta_days (days + min_days)).

Definition window_end (today : Timestamp) (date : Date) (days : Z) : Timestamp :=
  Z.min today (Timestamp_of_date date + Timedelta_days (days - 1)).

(** The lower bound as the specification words it. *)
Definition spec_lower (date : Date) (days : Z) : Timestamp :=
  Z.max (Timestamp_ymd 2021 7 1)
        (Timestamp_of_date date - Timedelta_days (days + min_days)).

(** A chart trace, a figure, the summary line and a download. *)
Record Scatter := mkScatter {
  trace_x : list Timestamp;
  trace_y : list cell;
  trace_mode : string;
  trace_name : string;
  trace_opacity : Qc;
  trace_line_width : Qc
}.

Record Figure := mkFigure {
  fig_data : list Scatter;
  fig_template : string;
  fig_height : Z
}.

Inductive summary :=
  | NoData
  | Summary (words publication : string) (start_date end_date : Date).

Record Download := mkDownload {
  content : string;
  filename : string
}.

(** The JSON text kept in [data_store], represented by the frame it
    encodes; NaN and the infinities are written as [null]. *)
Abbreviation json := DataFrame.

Definition json_cell (c : cell) : cell :=
  match c with Num q => Num q | _ => NaN end.

(** [df.to_json(date_format='iso')]. *)
Definition to_json (df : loc) : M json :=
  f ← get_frame df; mret (map_cells json_cell f).

(** [pd.read_json(StringIO(data_json))]. *)
Definition read_json (j : json) : M loc := alloc (OFrame j).

Section App.

(** The corpus adapter [api.ngram_news]: what it returns, or the
    exception it raises, for each request. *)
Variable adapter : call → outcome object.

(** [Series / DataFrame] and [df[x] = DataFrame] as pandas computes them;
    the program reaches them only when the reference fetch has failed. *)
Variable series_truediv_frame : Series → DataFrame → outcome object.
Variable set_column_frame : string → DataFrame → DataFrame → outcome DataFrame.

(** The order in which [list(set(l))] enumerates the elements of [l]. *)
Variable list_of_set : list string → list string.

(** The spreadsheet encoder behind [to_excel]. *)
Variable excel_bytes : DataFrame → string.

(** [api.ngram_news(words, period=period, title=title)]: the request is
    recorded, the object returned is new. *)
Definition api_ngram_news (words : list string) (period : Date * Date)
    (title : option string) : M loc :=
  λ w, let c := mkCall words period title in
       let w' := mkWorld (heap w) (now w) (calls w ++ [c]) in
       match adapter c with
       | Ret o => alloc o w'
       | Raise e => (Raise e, w')
       end.

(** [sumword(words, period, title)], lines 43-53. *)
Definition sumword (words : string) (period : Date * Date)
    (title : option string) : M loc :=
  let wordlist := map strip (split_comma words) in
  let wordlist :=
    if bool_decide (EmptyString ∈ wordlist)
    then "," :: filter (λ y, y ≠ EmptyString) wordlist
    else wordlist in
  try_except
    (r ← api_ngram_news wordlist period title;
     ref ← pd.sum_axis1_named r "tot";
     pd.series_index_map_Timestamp ref;;
     mret ref)
    AttributeError
    pd.DataFrame_new.

(** [a / b] where [a] is a series. *)
Definition truediv (a b : loc) : M loc :=
  sa ← get_series a;
  ob ← get_object b;
  match ob with
  | OSeries sb => alloc (OSeries (pd.series_truediv sa sb))
  | OFrame fb =>
      match series_truediv_frame sa fb with
      | Ret o => alloc o
      | Raise e => raise e
      end
  | ONone => raise TypeError
  end.

(** [df[x] = v]. *)
Definition setitem (df : loc) (x : string) (v : loc) : M unit :=
  f ← get_frame df;
  ov ← get_object v;
  match ov with
  | OSeries s => store df (OFrame (pd.set_column x s f))
  | OFrame fv =>
      match set_column_frame x fv f with
      | Ret f' => store df (OFrame f')
      | Raise e => raise e
      end
  | ONone => raise TypeError
  end.

(** [for x in xs: res[x] = res[x] / tot]. *)
Fixpoint divide_columns (res tot : loc) (xs : list string) : M unit :=
  match xs with
  | [] => mret tt
  | x :: xs' =>
      col ← pd.getitem res x;
      q ← truediv col tot;
      setitem res x q;;
      divide_columns res tot xs'
  end.

(** [ngram(word, mid_date, sammenlign, title)], lines 55-69. *)
Definition ngram (word : list string) (mid_date : Date) (sammenlign : string)
    (title : option string) : M loc :=
  let period := (mid_date - max_days, mid_date + max_days) in
  try_except
    (r ← api_ngram_news word period title;
     r ← pd.fillna r 0%Qc;
     res ← pd.sort_index r;
     pd.index_map_Timestamp res;;
     (if decide (sammenlign ≠ EmptyString)
      then tot ← sumword sammenlign period title;
           xs ← pd.frame_columns res;
           divide_columns res tot xs
      else mret tt);;
     mret res)
    AttributeError
    pd.DataFrame_new.

(** [update_data(words, avisnavn, mid_date, period_size)], lines 265-273.
    [mid_date] is the date the text of the date picker parses to. *)
Definition update_data (words : string) (avisnavn : option string)
    (mid_date : Date) (period_size : option Z) : M json :=
  let allword := take 30 (list_of_set (map strip (split_comma words))) in
  let avisnavn :=
    if decide (avisnavn = Some "--ingen--") then None else avisnavn in
  let period_size := default max_days period_size in
  df ← ngram allword mid_date EmptyString avisnavn;
  to_json df.

(** [to_excel(df)], lines 28-34. *)
Definition to_excel (df : loc) : M string :=
  f ← get_frame df; mret (excel_bytes f).

(** The traces [update_chart] builds, one per column. *)
Definition traces (f : DataFrame) (plot_type : string) (alpha width : option Qc)
    : list Scatter :=
  imap (λ j col,
          mkScatter (index f) (column_at j (rows f)) plot_type col
            (default (Q2Qc (9 # 10)) alpha) (default (Q2Qc 3) width))
       (columns f).

(** [update_chart(...)], lines 305-345. *)
Definition update_chart (data_json : option json) (mid_date : Date)
    (period_size smooth_slider : option Z) (theme : option string)
    (alpha width : option Qc) (plot_type : string) (n_clicks : Z)
    (words : string) (avisnavn : option string) (filnavn : string)
    : M (Figure * summary * option Download) :=
  match data_json with
  | None => mret (mkFigure [] "" 0, NoData, None)
  | Some j =>
      df ← read_json j;
      let period_size := default max_days period_size in
      let smooth_slider := default 3 smooth_slider in
      df_for_print ← adjust df mid_date period_size smooth_slider;
      f ← get_frame df_for_print;
      let fig := mkFigure (traces f plot_type alpha width)
                          (default "plotly" theme) 500 in
      let start_date := mid_date - period_size in
      let end_date := mid_date + period_size in
      let publication :=
        match avisnavn with
        | Some t => if decide (t = EmptyString) then "Alle" else t
        | None => "Alle"
        end in
      let summ := Summary words publication start_date end_date in
      if decide (n_clicks > 0)
      then excel_data ← to_excel df_for_print;
           mret (fig, summ, Some (mkDownload excel_data filnavn))
      else mret (fig, summ, None)
  end.

End App.

(** ** What [adjust] computes, on frame values *)

Definition in_window (s e : Timestamp) (r : row) : bool :=
  bool_decide (s ≤ r.1) && bool_decide (r.1 ≤ e).

Definition is_sunday (t : Timestamp) : bool := bool_decide (dayofweek t = 6).

Definition null_sunday (r : row) : row :=
  if is_sunday r.1 then (r.1, map (λ _, NaN) r.2) else r.

(** The rows kept by the date mask, Sundays nulled: the frame [res] of
    [adjust] before the rolling mean. *)
Definition masked_rows (today : Timestamp) (date : Date) (days : Z)
    (f : DataFrame) : list row :=
  map null_sunday
      (filter (λ r, in_window (window_start date days)
                              (window_end today date days) r = true) (rows f)).

(** The value [fillna(0)] and [astype(int)] leave in a cell that is not
    infinite. *)
Definition int_cell (c : cell) : cell :=
  match c with
  | Num q => Num (Qc_of_Z (trunc q))
  | _ => Num (Qc_of_Z 0)
  end.

Definition adjusted_frame (today : Timestamp) (date : Date) (days smooth : Z)
    (f : DataFrame) : DataFrame :=
  map_cells int_cell
    (mkDataFrame (columns f)
       (rolling_mean_rows (Z.to_nat smooth) 1 (masked_rows today date days f))).

(** The objects a returning call of [adjust] allocates, in order. *)
Definition adjust_objects (today : Timestamp) (date : Date) (days smooth : Z)
    (f : DataFrame) : list object :=
  let masked := mkDataFrame (columns f) (masked_rows today date days f) in
  let rolled := mkDataFrame (columns f)
                  (rolling_mean_rows (Z.to_nat smooth) 1 (rows masked)) in
  [OFrame f; OFrame masked; OFrame rolled; OFrame (frame_fillna 0%Qc rolled);
   OFrame (adjusted_frame today date days smooth f)].

(** The state after the objects [os] have been allocated. *)
Definition extend (w : world) (os : list object) : world :=
  mkWorld (heap w ++ os) (now w) (calls w).

(** ** Derived definitions used by the statements *)

Definition is_num (c : cell) : Prop := ∃ q, c = Num q.

Definition finite_rows (rs : list row) : Prop :=
  Forall (λ r : row, Forall no_inf r.2) rs.

(** The frame [adjust] returns, or the exception it raises, for the frame
    [f] read at clock reading [today]. *)
Definition adjust_result (today : Timestamp) (date : Date) (days smooth : Z)
    (f : DataFrame) : outcome DataFrame :=
  if decide (smooth < 1) then Raise ValueError
  else
    match frame_astype_int
            (frame_fillna 0%Qc
               (mkDataFrame (columns f)
                  (rolling_mean_rows (Z.to_nat smooth) 1
                     (masked_rows today date days f)))) with
    | Some f' => Ret f'
    | None => Raise ValueError
    end.

(** What a run leaves to its caller: the frame returned, or the exception
    (a reference to an object that is not a frame is read as the
    [AttributeError] its first use raises). *)
Definition frame_result (x : outcome loc * world) : outcome DataFrame :=
  match x with
  | (Ret r, w) =>
      match heap w !! r with
      | Some (OFrame f) => Ret f
      | _ => Raise AttributeError
      end
  | (Raise e, _) => Raise e
  end.

(** The same state at another reading of the clock. *)
Definition set_now (t : Timestamp) (w : world) : world :=
  mkWorld (heap w) t (calls w).

(** The [w - 1] entries before position [i]. *)
Definition preceding_window {A} (w i : nat) (l : list A) : list A :=
  drop (S i - w) (take i l).

(** The state after a request to the adapter has been recorded. *)
Definition log_call (c : call) (w : world) : world :=
  mkWorld (heap w) (now w) (calls w ++ [c]).

(** The request [ngram] makes for a word list. *)
Definition word_call (word : list string) (mid_date : Date)
    (title : option string) : call :=
  mkCall word (mid_date - max_days, mid_date + max_days) title.

(** The frame [ngram] builds from the adapter's frame before any
    normalisation: missing counts are 0 and the rows are in date order. *)
Definition fetched_frame (raw : DataFrame) : DataFrame :=
  mkDataFrame (columns raw) (sort_rows (rows (frame_fillna 0%Qc raw))).

(** The word list [sumword] asks the adapter for. *)
Definition reference_words (words : string) : list string :=
  let wordlist := map strip (split_comma words) in
  if bool_decide (EmptyString ∈ wordlist)
  then "," :: filter (λ y, y ≠ EmptyString) wordlist
  else wordlist.

(** The download output of a run of [update_chart]. *)
Definition download_of
    (x : outcome (Figure * summary * option Download) * world)
    : option Download :=
  match x with
  | (Ret (_, _, d), _) => d
  | (Raise _, _) => None
  end.

(** The reference totals [sumword] computes from the adapter's frame. *)
Definition reference_totals (refraw : DataFrame) : list (Timestamp * cell) :=
  map (λ r : row, (r.1, row_sum r.2)) (rows refraw).

(** One turn of the loop of [ngram]: [res[x] = res[x] / tot]. *)
Definition divide_column (st : Series) (x : string) (g : DataFrame) : DataFrame :=
  match pd.column_position x (columns g) with
  | Some j =>
      pd.set_column x
        (pd.series_truediv
           (mkSeries x (map (λ r : row, (r.1, default NaN (r.2 !! j))) (rows g)))
           st) g
  | None => g
  end.

(** Every cell divided by the value of a series at the label of its row. *)
Definition divided_frame (tot : list (Timestamp * cell)) (g : DataFrame)
    : DataFrame :=
  mkDataFrame (columns g)
    (map (λ r : row, (r.1, map (λ c, cell_div c (pd.series_at r.1 tot)) r.2))
         (rows g)).

(** The frame after the first [k] columns have been divided. *)
Definition partly_divided (tot : list (Timestamp * cell)) (k : nat)
    (g : DataFrame) : DataFrame :=
  mkDataFrame (columns g)
    (map (λ r : row,
            (r.1, map (λ c, cell_div c (pd.series_at r.1 tot)) (take k r.2)
                  ++ drop k r.2))
         (rows g)).

(** ** Concrete frames, states and adapters *)

Module Examples.

Definition count (z : Z) : cell := Num (Qc_of_Z z).

(** Friday 2026-10-30 to Monday 2026-11-02; 2026-11-01 is a Sunday. *)
Definition week : DataFrame :=
  mkDataFrame ["frihet"]
    [(Timestamp_ymd 2026 10 30, [count 1]);
     (Timestamp_ymd 2026 10 31, [count 2]);
     (Timestamp_ymd 2026 11 1, [count 100]);
     (Timestamp_ymd 2026 11 2, [count 7])].

Definition noon_2026_11_03 : Timestamp :=
  Timestamp_ymd 2026 11 3 + 12 * 3600 * 1000000000.

Definition week_world : world := mkWorld [OFrame week] noon_2026_11_03 [].

(** One count on Thursday 2015-01-01. *)
Definition year_2015 : DataFrame :=
  mkDataFrame ["frihet"] [(Timestamp_ymd 2015 1 1, [count 5])].

Definition world_2015 : world := mkWorld [OFrame year_2015] noon_2026_11_03 [].

(** One count on Tuesday 2026-11-03, read one hour before that day. *)
Definition tomorrow : DataFrame :=
  mkDataFrame ["frihet"] [(Timestamp_ymd 2026 11 3, [count 4])].

Definition evening_world : world :=
  mkWorld [OFrame tomorrow] (Timestamp_ymd 2026 11 3 - 3600 * 1000000000) [].

Definition one_hour_later : Timestamp :=
  Timestamp_ymd 2026 11 3 + 3600 * 1000000000.

Definition empty_world : world := mkWorld [] noon_2026_11_03 [].

(** Adapters: one that is down, one that finds nothing, one that answers
    every request with the same frame. *)
Definition adapter_down (_ : call) : outcome object :=
  Raise (OtherError "ConnectionError").

Definition adapter_no_data (_ : call) : outcome object := Raise AttributeError.

Definition adapter_const (f : DataFrame) (_ : call) : outcome object :=
  Ret (OFrame f).

Definition no_truediv (_ : Series) (_ : DataFrame) : outcome object :=
  Raise ValueError.

Definition no_set_column (_ : string) (_ _ : DataFrame) : outcome DataFrame :=
  Raise ValueError.

Definition encoder (_ : DataFrame) : string := "xlsx".

(** A date on which the word and the reference both count 0. *)
Definition zero_day : DataFrame :=
  mkDataFrame ["frihet"] [(Timestamp_ymd 2026 10 30, [count 0])].

(** Two renders with the same click count 1; between them only the theme
    changes. *)
Definition first_render
    : outcome (Figure * summary * option Download) * world :=
  update_chart encoder (Some week) (days_from_civil 2026 11 1) (Some 10)
    (Some 3) (Some "plotly") None None "lines" 1 "frihet" None
    "dagsplott.xlsx" week_world.

Definition second_render
    : outcome (Figure * summary * option Download) * world :=
  update_chart encoder (Some week) (days_from_civil 2026 11 1) (Some 10)
    (Some 3) (Some "plotly_dark") None None "lines" 1 "frihet" None
    "dagsplott.xlsx" first_render.2.

Definition two_days : DataFrame :=
  mkDataFrame ["frihet"]
    [(Timestamp_ymd 2026 10 30, [count 2]);
     (Timestamp_ymd 2026 10 31, [count 3])].

End Examples.
Import Examples.

(** ** Predicates on the cells of a frame *)

(** A cell that is null or a number between [a] and [b]. *)
Definition cell_between (a b : Qc) (c : cell) : Prop :=
  c = NaN ∨ ∃ q, c = Num q ∧ (a ≤ q)%Qc ∧ (q ≤ b)%Qc.

(** A cell that is null or a number from [a] up to, and not including, [b]. *)
Definition cell_below (a b : Qc) (c : cell) : Prop :=
  c = NaN ∨ ∃ q, c = Num q ∧ (a ≤ q)%Qc ∧ (q < b)%Qc.

Definition cells_of (f : DataFrame) (P : cell → Prop) : Prop :=
  Forall (λ r : row, Forall P r.2) (rows f).

(** The sum of the numbers of a list of cells. *)
Definition Qc_sum (obs : list cell) : Qc :=
  foldr (λ c s, match c with Num q => (q + s)%Qc | _ => s end) 0%Qc obs.

(** A cell that is null or a number that is not negative. *)
Definition nonneg_cell (c : cell) : Prop :=
  c = NaN ∨ ∃ q, c = Num q ∧ (0 ≤ q)%Qc.

(** ** The other callbacks and helpers of [app.py] *)

(** [toggle_sidebar(n_clicks, is_open)], lines 253-256: [None] and 0 are
    false in a condition, every other count is true. *)
Definition toggle_sidebar (n_clicks : option Z) (is_open : bool) : bool :=
  match n_clicks with
  | Some n => if decide (n = 0) then is_open else negb is_open
  | None => is_open
  end.

(** The sidebar after the page load (click count 0) and [k] clicks, the
    callback running once for each value of the counter. *)
Fixpoint sidebar_after (k : nat) (is_open : bool) : bool :=
  match k with
  | O => toggle_sidebar (Some 0) is_open
  | S k' => toggle_sidebar (Some (Z.of_nat k)) (sidebar_after k' is_open)
  end.

(** A calendar date as [datetime] holds it. *)
Record civil := mkCivil {
  year : Z;
  month : Z;
  day : Z
}.

Global Instance civil_eq_dec : EqDecision civil.
Proof. solve_decision. Defined.

Definition is_leap (y : Z) : bool :=
  (y mod 4 =? 0) && (negb (y mod 100 =? 0) || (y mod 400 =? 0)).

Definition days_in_month (y m : Z) : Z :=
  if (m =? 2) then (if is_leap y then 29 else 28)
  else if (m =? 4) || (m =? 6) || (m =? 9) || (m =? 11) then 30
  else if (1 <=? m) && (m <=? 12) then 31
  else 0.

(** The dates [datetime] accepts: years 1 to 9999. *)
Definition valid_civil (c : civil) : Prop :=
  1 ≤ year c ≤ 9999 ∧ 1 ≤ month c ≤ 12 ∧ 1 ≤ day c ≤ days_in_month (year c) (month c).

Global Instance valid_civil_dec c : Decision (valid_civil c).
Proof. unfold valid_civil. apply _. Defined.

(** [d.replace(year=y)]: [ValueError] when the result is not a date. *)
Definition replace_year (c : civil) (y : Z) : outcome civil :=
  let c' := mkCivil y (month c) (day c) in
  if decide (valid_civil c') then Ret c' else Raise ValueError.

(** [s.split('T')[0]]: the text before the first [T], all of [s] when it
    holds none; more generally, the text before the first [c]. *)
Fixpoint take_until (c : Ascii.ascii) (s : string) : string :=
  match s with
  | EmptyString => EmptyString
  | String c' s' => if Ascii.eqb c c' then EmptyString else String c' (take_until c s')
  end.

(** The value the year picker writes to the date picker: the text it was
    given, or a [datetime] at midnight. *)
Inductive picked_date :=
  | DateText (s : string)
  | DateTime (c : civil).

Section YearPicker.

(** [datetime.datetime.strptime(s, '%Y-%m-%d')]: the date a text parses to,
  or the exception the parser raises. *)
Variable strptime : string → outcome civil.

(** [update_date_from_year(year, current_date)], lines 281-286. *)
Definition update_date_from_year (y : option Z) (current_date : string)
  : outcome picked_date :=
match y with
| None => Ret (DateText current_date)
| Some y =>
    match strptime (take_until (Ascii.ascii_of_nat 84) current_date) with
    | Ret current =>
        match replace_year current y with
        | Ret new_date => Ret (DateTime new_date)
        | Raise e => Raise e
        end
    | Raise e => Raise e
    end
end.

End YearPicker.

(** ** [make_nb_query] *)

(** The characters [urllib.parse.quote] never escapes: letters, digits and
    [_.-~]. *)
Definition is_unreserved (c : Ascii.ascii) : bool :=
  let n := Ascii.nat_of_ascii c in
  ((65 <=? n) && (n <=? 90) || (97 <=? n) && (n <=? 122)
   || (48 <=? n) && (n <=? 57)
   || (n =? 95) || (n =? 46) || (n =? 45) || (n =? 126))%nat.

Definition hex_digit (n : nat) : Ascii.ascii :=
  Ascii.ascii_of_nat (if (n <? 10)%nat then 48 + n else 55 + n)%nat.

(** [%XX], in upper-case hexadecimal. *)
Definition percent_encode (c : Ascii.ascii) : string :=
  let n := Ascii.nat_of_ascii c in
  String (Ascii.ascii_of_nat 37)
    (String (hex_digit (n / 16)) (String (hex_digit (n mod 16)) EmptyString)).

Definition quote_plus_char (c : Ascii.ascii) : string :=
  if is_unreserved c then String c EmptyString
  else if Ascii.eqb c (Ascii.ascii_of_nat 32) then "+"
  else percent_encode c.

(** [urllib.parse.quote_plus(s)] on the bytes of [s]. *)
Fixpoint quote_plus (s : string) : string :=
  match s with
  | EmptyString => EmptyString
  | String c s' => quote_plus_char c +:+ quote_plus s'
  end.

(** [urlencode(d)]: [key=value] pairs joined by [&]. *)
Fixpoint urlencode (d : list (string * string)) : string :=
  match d with
  | [] => EmptyString
  | [(k, v)] => quote_plus k +:+ "=" +:+ quote_plus v
  | (k, v) :: d' => quote_plus k +:+ "=" +:+ quote_plus v +:+ "&" +:+ urlencode d'
  end.

Definition digit (n : Z) : Ascii.ascii :=
  Ascii.ascii_of_nat (48 + Z.to_nat (n mod 10)).

(** [d.strftime('%Y%m%d')], for the years from 1000 on. *)
Definition strftime_Ymd (c : civil) : string :=
  String (digit (year c / 1000)) (String (digit (year c / 100))
  (String (digit (year c / 10)) (String (digit (year c))
  (String (digit (month c / 10)) (String (digit (month c))
  (String (digit (day c / 10)) (String (digit (day c)) EmptyString))))))).

(** [make_nb_query(name, start_date, end_date)], lines 21-26. *)
Definition make_nb_query (name : string) (start_date end_date : civil) : string :=
  "https://www.nb.no/search?mediatype=aviser&"
  +:+ urlencode [("q", name);
                 ("fromDate", strftime_Ymd start_date);
                 ("toDate", strftime_Ymd end_date)].

(** Reading a URL back: the number of occurrences of a character, the text
    up to a character, and the inverse of [quote_plus]. *)
Fixpoint count_char (c : Ascii.ascii) (s : string) : nat :=
  match s with
  | EmptyString => 0
  | String c' s' => (if Ascii.eqb c c' then 1 else 0) + count_char c s'
  end.

Fixpoint drop_string (n : nat) (s : string) : string :=
  match n, s with
  | S n', String _ s' => drop_string n' s'
  | _, _ => s
  end.

Definition hex_value (c : Ascii.ascii) : option nat :=
  let n := Ascii.nat_of_ascii c in
  if ((48 <=? n) && (n <=? 57))%nat then Some (n - 48)%nat
  else if ((65 <=? n) && (n <=? 70))%nat then Some (n - 55)%nat
  else if ((97 <=? n) && (n <=? 102))%nat then Some (n - 87)%nat
  else None.

Fixpoint unquote_plus (s : string) : string :=
  match s with
  | EmptyString => EmptyString
  | String c s' =>
      if Ascii.eqb c (Ascii.ascii_of_nat 43) then
        String (Ascii.ascii_of_nat 32) (unquote_plus s')
      else if Ascii.eqb c (Ascii.ascii_of_nat 37) then
        match s' with
        | String h (String l s'') =>
            match hex_value h, hex_value l with
            | Some a, Some b =>
                String (Ascii.ascii_of_nat (16 * a + b)) (unquote_plus s'')
            | _, _ => String c (unquote_plus s')
            end
        | _ => String c (unquote_plus s')
        end
      else String c (unquote_plus s')
  end.

(** A character that [quote_plus] can produce: an unreserved one, [+] or
    [%]. *)
Definition quoted_char (c : Ascii.ascii) : bool :=
  is_unreserved c || Ascii.eqb c (Ascii.ascii_of_nat 43)
  || Ascii.eqb c (Ascii.ascii_of_nat 37).

Fixpoint string_forall (P : Ascii.ascii → bool) (s : string) : bool :=
  match s with
  | EmptyString => true
  | String c s' => P c && string_forall P s'
  end.

(** The value of the parameter [q] of a URL built by [make_nb_query]. *)
Definition query_name (url : string) : string :=
  unquote_plus (take_until (Ascii.ascii_of_nat 38) (drop_string 44 url)).

(** ** More concrete frames *)

Module Samples.

(** Ratios below 1 on two week days. *)
Definition ratios : DataFrame :=
mkDataFrame ["frihet"]
  [(Timestamp_ymd 2026 10 30, [Num (Q2Qc (1 # 2))]);
   (Timestamp_ymd 2026 10 31, [Num (Q2Qc (3 # 4))])].

Definition ratios_world : world := mkWorld [OFrame ratios] noon_2026_11_03 [].

(** A parser that knows two texts. *)
Definition strptime_iso (s : string) : outcome civil :=
if decide (s = "2024-02-29") then Ret (mkCivil 2024 2 29)
else if decide (s = "2020-07-01") then Ret (mkCivil 2020 7 1)
else Raise ValueError.

End Samples.
Import Samples.


(** * Properties *)

(** Unfolding the functions of the program by name, also where a section
    abbreviates their applications. *)
Ltac unfold_ngram := unfold ngram.
Ltac unfold_sumword := unfold sumword.
Ltac unfold_update_data := unfold update_data.
Ltac unfold_update_chart := unfold update_chart, read_json.
Ltac cbn_divide_columns := cbn [divide_columns].
Ltac replace_divide_columns w' Hrun :=
  match goal with
  | |- context [divide_columns ?a ?b ?r ?t ?xs ?W] =>
      replace (divide_columns a b r t xs W) with (@Ret unit tt, w')
        by (symmetry; exact Hrun)
  end.

(** ** Lemmas: the monad and the store *)

Lemma bind_run {A B} (m : M A) (k : A → M B) w :
  (m ≫= k) w = match m w with
               | (Ret a, w') => k a w'
               | (Raise e, w') => (Raise e, w')
               end.
Proof. reflexivity. Qed.

Lemma get_frame_ret r f w :
  heap w !! r = Some (OFrame f) → get_frame r w = (Ret f, w).
Proof. intros H. unfold get_frame. rewrite H. reflexivity. Qed.

Lemma extend_lookup_old w os r o :
  heap w !! r = Some o → heap (extend w os) !! r = Some o.
Proof. intros H. simpl. by apply lookup_app_l_Some. Qed.

Lemma extend_lookup_new w os k o :
  os !! k = Some o → heap (extend w os) !! (length (heap w) + k)%nat = Some o.
Proof. intros H. simpl. rewrite lookup_app_r by lia. by replace (_ + k - _)%nat with k by lia. Qed.

Lemma alloc_extend w os o :
  alloc o (extend w os) = (Ret (length (heap w) + length os)%nat, extend w (os ++ [o])).
Proof. unfold alloc, extend. simpl. rewrite length_app, <-(assoc_L (++)). reflexivity. Qed.

Lemma store_extend w os k o o' :
  os !! k = Some o' →
  store (length (heap w) + k)%nat o (extend w os) = (Ret tt, extend w (<[k := o]> os)).
Proof.
  intros H. unfold store, extend. simpl.
  rewrite insert_app_r_alt by lia.
  by replace (_ + k - _)%nat with k by lia.
Qed.

(** ** Lemmas: masks, rolling means and integer casts *)

Lemma select_rows_window s e (rs : list row) :
  select_rows (pd.mask_and (map (λ t, bool_decide (s ≤ t)) rs.*1)
                           (map (λ t, bool_decide (t ≤ e)) rs.*1)) rs
  = filter (λ r, in_window s e r = true) rs.
Proof.
  induction rs as [|r rs IH]; [reflexivity|].
  unfold pd.mask_and in *. cbn [fmap list_fmap map zip_with select_rows].
  rewrite filter_cons. change (bool_decide (s ≤ r.1) && bool_decide (r.1 ≤ e))
    with (in_window s e r).
  destruct (decide (in_window s e r = true)) as [E|E].
  - rewrite E. by rewrite IH.
  - apply not_true_is_false in E. rewrite E. by rewrite IH.
Qed.

Lemma window_mask_length s e (rs : list row) :
  length (pd.mask_and (map (λ t, bool_decide (s ≤ t)) rs.*1)
                      (map (λ t, bool_decide (t ≤ e)) rs.*1)) = length rs.
Proof.
  unfold pd.mask_and. rewrite length_zip_with, !length_map. apply Nat.min_id.
Qed.

Lemma null_rows_sunday (rs : list row) :
  null_rows (map (λ t, bool_decide (dayofweek t = 6)) rs.*1) rs = map null_sunday rs.
Proof.
  induction rs as [|r rs IH]; [reflexivity|].
  cbn [fmap list_fmap map null_rows]. rewrite <-IH. reflexivity.
Qed.

Lemma rolling_mean_rows_index w m (rs : list row) :
  (rolling_mean_rows w m rs).*1 = rs.*1.
Proof.
  unfold rolling_mean_rows. apply list_eq. intros i.
  rewrite !list_lookup_fmap, list_lookup_imap.
  destruct (rs !! i); reflexivity.
Qed.

Lemma map_cells_index g f : index (map_cells g f) = index f.
Proof.
  unfold index, map_cells. simpl. induction (rows f) as [|r rs IH]; [done|].
  simpl. by f_equal.
Qed.

Lemma masked_rows_index today date days f t :
  t ∈ (masked_rows today date days f).*1 →
  window_start date days ≤ t ≤ window_end today date days.
Proof.
  unfold masked_rows. rewrite list_elem_of_fmap. intros [r [-> Hr]].
  apply list_elem_of_fmap in Hr as [r' [-> Hr']].
  apply list_elem_of_filter in Hr' as [Hw _].
  unfold in_window in Hw. apply andb_prop in Hw as [H1 H2].
  apply bool_decide_eq_true in H1, H2.
  unfold null_sunday. by destruct (is_sunday r'.1).
Qed.

(** ** Lemmas: frames of finite values *)

Lemma sum_is_num (obs : list cell) :
  Forall is_num obs → is_num (foldr cell_add (Num 0%Qc) obs).
Proof.
  induction 1 as [|c obs [q ->] _ [s IH]]; simpl; [by eexists|].
  rewrite IH. by eexists.
Qed.

Lemma observations_is_num (win : list cell) :
  Forall no_inf win → Forall is_num (observations win).
Proof.
  intros H. unfold observations. apply Forall_forall. intros c Hc.
  apply list_elem_of_filter in Hc as [Hn Hc].
  rewrite Forall_forall in H. specialize (H c Hc).
  destruct c as [|b|q]; [done|by destruct (H b)|by eexists].
Qed.

Lemma Qc_of_nat_S_ne_0 (n : nat) : Qc_of_Z (Z.of_nat (S n)) ≠ 0%Qc.
Proof. rewrite <-Z2Qc_inj_0. intros H%Z2Qc_inj. lia. Qed.

Lemma window_mean_no_inf m (win : list cell) :
  Forall no_inf win → no_inf (window_mean m win).
Proof.
  intros H b. unfold window_mean.
  destruct (decide _); [done|].
  pose proof (sum_is_num _ (observations_is_num _ H)) as [s Hs].
  destruct (observations win) as [|c obs] eqn:E; [done|].
  rewrite Hs. unfold cell_div.
  rewrite decide_False by apply Qc_of_nat_S_ne_0. done.
Qed.

Lemma column_at_no_inf j (rs : list row) :
  finite_rows rs → Forall no_inf (column_at j rs).
Proof.
  intros H. unfold column_at. apply Forall_map. eapply Forall_impl; [exact H|].
  intros r Hr. simpl. destruct (r.2 !! j) as [c|] eqn:E; simpl; [|done].
  eapply Forall_lookup_1 in Hr; eauto.
Qed.

Lemma window_at_Forall {A} (P : A → Prop) w i (l : list A) :
  Forall P l → Forall P (window_at w i l).
Proof. intros H. unfold window_at. by apply Forall_drop, Forall_take. Qed.

Lemma rolling_mean_rows_finite w m (rs : list row) :
  finite_rows rs → finite_rows (rolling_mean_rows w m rs).
Proof.
  intros H. unfold finite_rows, rolling_mean_rows.
  apply Forall_lookup. intros i r. rewrite list_lookup_imap.
  destruct (rs !! i) as [r0|]; [|done]. intros [= <-]. simpl.
  apply Forall_lookup. intros j c. rewrite list_lookup_imap.
  destruct (r0.2 !! j); [|done]. intros [= <-].
  apply window_mean_no_inf, window_at_Forall, column_at_no_inf, H.
Qed.

Lemma null_sunday_finite (rs : list row) :
  finite_rows rs → finite_rows (map null_sunday rs).
Proof.
  intros H. apply Forall_map. eapply Forall_impl; [exact H|].
  intros r Hr. unfold null_sunday. destruct (is_sunday r.1); [|done].
  simpl. apply Forall_map, Forall_true. by intros _ b.
Qed.

Lemma masked_rows_finite today date days f :
  finite_frame f → finite_rows (masked_rows today date days f).
Proof.
  intros H. unfold masked_rows. apply null_sunday_finite.
  unfold finite_rows. apply Forall_forall. intros r [_ Hr]%list_elem_of_filter.
  unfold finite_frame in H. rewrite Forall_forall in H. by apply H.
Qed.

Lemma astype_int_fillna_cells (cs : list cell) :
  Forall no_inf cs →
  mapM astype_int_cell (map (fillna_cell 0%Qc) cs) = Some (map int_cell cs).
Proof.
  induction 1 as [|c cs Hc _ IH]; [done|].
  cbn [map mapM]. rewrite IH.
  destruct c as [|b|q]; [done|by destruct (Hc b)|done].
Qed.

Lemma frame_astype_int_fillna (g : DataFrame) :
  finite_rows (rows g) →
  frame_astype_int (frame_fillna 0%Qc g) = Some (map_cells int_cell g).
Proof.
  intros H. unfold frame_astype_int, frame_fillna, map_cells. simpl.
  assert (mapM astype_int_row
            (map (λ r : Z * list cell, (r.1, map (fillna_cell 0%Qc) r.2)) (rows g))
          = Some (map (λ r : Z * list cell, (r.1, map int_cell r.2)) (rows g))) as ->; [|done].
  induction H as [|r rs Hr _ IH]; [done|].
  cbn [map mapM]. rewrite IH. unfold astype_int_row at 1. simpl.
  by rewrite astype_int_fillna_cells.
Qed.

(** ** Running [adjust] *)

Lemma extend_extend w os os' : extend (extend w os) os' = extend w (os ++ os').
Proof. unfold extend. simpl. by rewrite <-(assoc_L (++)). Qed.

Lemma extend_nil w : extend w [] = w.
Proof. destruct w. unfold extend. simpl. by rewrite app_nil_r. Qed.

Lemma try_except_ret {A} (m h : M A) e w a w' :
  m w = (Ret a, w') → try_except m e h w = (Ret a, w').
Proof. intros H. unfold try_except. by rewrite H. Qed.

Lemma try_except_other {A} (m h : M A) e e' w w' :
  m w = (Raise e', w') → e' ≠ e → try_except m e h w = (Raise e', w').
Proof. intros H Hne. unfold try_except. rewrite H. by rewrite decide_False. Qed.

Lemma try_except_caught {A} (m h : M A) e w w' :
  m w = (Raise e, w') → try_except m e h w = h w'.
Proof. intros H. unfold try_except. rewrite H. by rewrite decide_True. Qed.

Lemma adjust_try_run w df f date days smooth :
  heap w !! df = Some (OFrame f) → 1 ≤ smooth →
  let masked := mkDataFrame (columns f) (masked_rows (now w) date days f) in
  let rolled := mkDataFrame (columns f)
                  (rolling_mean_rows (Z.to_nat smooth) 1 (rows masked)) in
  adjust df date days smooth w =
    (res ← pd.fillna (length (heap w) + 2)%nat 0%Qc; pd.apply_astype_int res)
      (extend w [OFrame f; OFrame masked; OFrame rolled]).
Proof.
  intros Hdf Hs masked rolled. unfold adjust.
  rewrite bind_run. unfold pd.copy at 1. rewrite bind_run, (get_frame_ret _ _ _ Hdf).
  rewrite <-(extend_nil w) at 1. rewrite alloc_extend. simpl app.
  rewrite bind_run.
  erewrite try_except_ret; [reflexivity|].
  rewrite bind_run. unfold Timestamp_today at 1.
  unfold pd.index_ge. rewrite !bind_run.
  rewrite (get_frame_ret _ f) by (by apply extend_lookup_old).
  unfold ret at 1. unfold pd.index_le. rewrite !bind_run.
  rewrite (get_frame_ret _ f) by (by apply extend_lookup_old).
  unfold ret at 1.
  unfold pd.loc_getitem. rewrite !bind_run.
  rewrite (get_frame_ret _ f) by (by apply (extend_lookup_new _ _ 0%nat)).
  unfold index. rewrite decide_True by apply window_mask_length.
  rewrite alloc_extend. simpl app. simpl length.
  unfold pd.index_dayofweek_eq. rewrite !bind_run.
  erewrite get_frame_ret by (by apply (extend_lookup_new _ _ 1%nat)).
  unfold ret at 1. unfold pd.loc_setitem_NA. rewrite !bind_run.
  erewrite get_frame_ret by (by apply (extend_lookup_new _ _ 1%nat)).
  unfold index. cbn [rows columns]. rewrite decide_True by (by rewrite !length_map).
  erewrite (store_extend _ _ 1%nat) by reflexivity.
  cbn [list_insert insert].
  unfold pd.rolling_mean. rewrite bind_run.
  erewrite get_frame_ret by (by apply (extend_lookup_new _ _ 1%nat)).
  rewrite decide_False by lia. rewrite decide_False by lia.
  rewrite alloc_extend. simpl app. cbn [rows columns].
  rewrite select_rows_window, null_rows_sunday. simpl now.
  replace (length (heap w) + 0)%nat with (length (heap w)) by lia.
  reflexivity.
Qed.

Lemma adjust_raise_small_window w df f date days smooth :
  heap w !! df = Some (OFrame f) → smooth < 1 →
  adjust df date days smooth w
  = (Raise ValueError,
     extend w [OFrame f;
               OFrame (mkDataFrame (columns f) (masked_rows (now w) date days f))]).
Proof.
  intros Hdf Hs. unfold adjust.
  rewrite bind_run. unfold pd.copy at 1. rewrite bind_run, (get_frame_ret _ _ _ Hdf).
  rewrite <-(extend_nil w) at 1. rewrite alloc_extend. simpl app.
  rewrite bind_run.
  erewrite try_except_other; [reflexivity| |done].
  rewrite bind_run. unfold Timestamp_today at 1.
  unfold pd.index_ge. rewrite !bind_run.
  rewrite (get_frame_ret _ f) by (by apply extend_lookup_old).
  unfold ret at 1. unfold pd.index_le. rewrite !bind_run.
  rewrite (get_frame_ret _ f) by (by apply extend_lookup_old).
  unfold ret at 1.
  unfold pd.loc_getitem. rewrite !bind_run.
  rewrite (get_frame_ret _ f) by (by apply (extend_lookup_new _ _ 0%nat)).
  unfold index. rewrite decide_True by apply window_mask_length.
  rewrite alloc_extend. simpl app. simpl length.
  unfold pd.index_dayofweek_eq. rewrite !bind_run.
  erewrite get_frame_ret by (by apply (extend_lookup_new _ _ 1%nat)).
  unfold ret at 1. unfold pd.loc_setitem_NA. rewrite !bind_run.
  erewrite get_frame_ret by (by apply (extend_lookup_new _ _ 1%nat)).
  unfold index. cbn [rows columns]. rewrite decide_True by (by rewrite !length_map).
  erewrite (store_extend _ _ 1%nat) by reflexivity.
  cbn [list_insert insert].
  unfold pd.rolling_mean. rewrite bind_run.
  erewrite get_frame_ret by (by apply (extend_lookup_new _ _ 1%nat)).
  rewrite select_rows_window, null_rows_sunday. simpl now.
  destruct (decide (smooth < 0)); [reflexivity|].
  rewrite decide_True by lia. reflexivity.
Qed.

Lemma adjust_run w df f date days smooth :
  heap w !! df = Some (OFrame f) →
  ∃ os, (adjust df date days smooth w).2 = extend w os ∧
        frame_result (adjust df date days smooth w)
        = adjust_result (now w) date days smooth f.
Proof.
  intros Hdf. unfold adjust_result. destruct (decide (smooth < 1)) as [Hs|Hs].
  - rewrite (adjust_raise_small_window w df f date days smooth Hdf Hs).
    by eexists.
  - rewrite (adjust_try_run w df f date days smooth Hdf) by lia.
    rewrite bind_run. unfold pd.fillna. rewrite bind_run.
    erewrite get_frame_ret by (by apply (extend_lookup_new _ _ 2%nat)).
    rewrite alloc_extend. simpl app. simpl length.
    unfold pd.apply_astype_int. rewrite bind_run.
    erewrite get_frame_ret by (by apply (extend_lookup_new _ _ 3%nat)).
    cbn [rows columns].
    destruct (frame_astype_int _) as [f'|] eqn:E.
    + rewrite alloc_extend. simpl app. simpl length. eexists. split; [reflexivity|].
      unfold frame_result.
      by erewrite (extend_lookup_new _ _ 4%nat) by reflexivity.
    + eexists. split; reflexivity.
Qed.

Lemma adjust_returns w df f date days smooth :
  heap w !! df = Some (OFrame f) → 1 ≤ smooth → finite_frame f →
  adjust df date days smooth w
  = (Ret (length (heap w) + 4)%nat,
     extend w (adjust_objects (now w) date days smooth f)).
Proof.
  intros Hdf Hs Hf.
  rewrite (adjust_try_run w df f date days smooth Hdf) by lia.
  rewrite bind_run. unfold pd.fillna. rewrite bind_run.
  erewrite get_frame_ret by (by apply (extend_lookup_new _ _ 2%nat)).
  rewrite alloc_extend. simpl app. simpl length.
  unfold pd.apply_astype_int. rewrite bind_run.
  erewrite get_frame_ret by (by apply (extend_lookup_new _ _ 3%nat)).
  cbn [rows columns].
  rewrite frame_astype_int_fillna
    by (apply rolling_mean_rows_finite, masked_rows_finite, Hf).
  rewrite alloc_extend. reflexivity.
Qed.

Lemma adjust_result_finite today date days smooth f :
  1 ≤ smooth → finite_frame f →
  adjust_result today date days smooth f
  = Ret (adjusted_frame today date days smooth f).
Proof.
  intros Hs Hf. unfold adjust_result. rewrite decide_False by lia.
  rewrite frame_astype_int_fillna
    by (apply rolling_mean_rows_finite, masked_rows_finite, Hf).
  reflexivity.
Qed.

(** ** [adjust]: the date window, the store and repeated calls *)

Lemma astype_int_row_label (r r' : row) :
  astype_int_row r = Some r' → r'.1 = r.1.
Proof.
  unfold astype_int_row. destruct (mapM astype_int_cell r.2); simpl; [|done].
  by intros [= <-].
Qed.

Lemma frame_astype_int_index g g' :
  frame_astype_int g = Some g' → index g' = index g.
Proof.
  unfold frame_astype_int, index.
  destruct (mapM astype_int_row (rows g)) as [rs|] eqn:E; simpl; [|done].
  intros [= <-]. simpl. apply mapM_Some_1 in E.
  induction E as [|r r' l l' Hr _ IH]; [done|].
  cbn [fmap list_fmap]. f_equal; [by apply astype_int_row_label|exact IH].
Qed.

Lemma adjust_result_index today date days smooth f f' t :
  adjust_result today date days smooth f = Ret f' → t ∈ index f' →
  window_start date days ≤ t ≤ window_end today date days.
Proof.
  unfold adjust_result. destruct (decide (smooth < 1)); [done|].
  destruct (frame_astype_int _) as [g|] eqn:E; [|done].
  intros [= <-]. apply frame_astype_int_index in E. rewrite E.
  unfold frame_fillna. rewrite map_cells_index. unfold index. cbn [rows].
  rewrite rolling_mean_rows_index. apply masked_rows_index.
Qed.

Lemma frame_result_ret r w' f' (x : outcome loc * world) :
  x = (Ret r, w') → frame_result x = Ret f' → heap w' !! r = Some (OFrame f').
Proof.
  intros ->. unfold frame_result.
  destruct (heap w' !! r) as [[g| |]|]; try done. by intros [= ->].
Qed.


Lemma masked_rows_window_end t1 t2 date days f :
  window_end t1 date days = window_end t2 date days →
  masked_rows t1 date days f = masked_rows t2 date days f.
Proof. intros H. unfold masked_rows. by rewrite H. Qed.

Lemma adjust_result_window_end t1 t2 date days smooth f :
  window_end t1 date days = window_end t2 date days →
  adjust_result t1 date days smooth f = adjust_result t2 date days smooth f.
Proof.
  intros H. unfold adjust_result.
  by rewrite (masked_rows_window_end t1 t2 date days f H).
Qed.

(** Claim C9.  [adjust] leaves its argument as it was: after the call, whether
    it returned or raised, the reference of the input frame holds the same
    frame, and so does every reference that existed before the call. *)
Theorem adjust_preserves_store w df f date days smooth :
  heap w !! df = Some (OFrame f) →
  heap (adjust df date days smooth w).2 !! df = Some (OFrame f) ∧
  ∀ r o, heap w !! r = Some o →
         heap (adjust df date days smooth w).2 !! r = Some o.
Proof.
  intros Hdf.
  destruct (adjust_run w df f date days smooth Hdf) as [os [-> _]].
  split; [|intros r o Hr]; by apply extend_lookup_old.
Qed.

(** Claim C7, for clock readings that give the same upper bound.  A second
    call of [adjust] with the same arguments, run in the state the first call
    left and at a clock reading with the same [window_end], returns the same
    frame, or raises the same exception, as the first. *)
Theorem adjust_repeatable w df f date days smooth t2 :
  heap w !! df = Some (OFrame f) →
  window_end (now w) date days = window_end t2 date days →
  frame_result (adjust df date days smooth
                  (set_now t2 (adjust df date days smooth w).2))
  = frame_result (adjust df date days smooth w).
Proof.
  intros Hdf Hend.
  destruct (adjust_run w df f date days smooth Hdf) as [os [Hw ->]].
  rewrite Hw.
  assert (heap (set_now t2 (extend w os)) !! df = Some (OFrame f)) as Hdf2
    by (by apply extend_lookup_old).
  destruct (adjust_run _ df f date days smooth Hdf2) as [os2 [_ ->]].
  simpl now. symmetry. by apply adjust_result_window_end.
Qed.

(** ** [adjust]: windows of one row and Sunday rows *)

Lemma window_at_lookup {A} (w i : nat) (l : list A) x :
  l !! i = Some x → (1 ≤ w)%nat →
  window_at w i l = preceding_window w i l ++ [x].
Proof.
  intros Hx Hw. unfold window_at, preceding_window.
  rewrite (take_S_r _ _ _ Hx).
  assert (i < length l)%nat by (by eapply lookup_lt_Some).
  rewrite drop_app_le by (rewrite length_take; lia). reflexivity.
Qed.

Lemma window_at_one {A} (i : nat) (l : list A) x :
  l !! i = Some x → window_at 1 i l = [x].
Proof.
  intros Hx. rewrite (window_at_lookup 1 i l x Hx) by lia.
  unfold preceding_window. replace (S i - 1)%nat with i by lia.
  rewrite drop_ge by (rewrite length_take; lia). reflexivity.
Qed.

Lemma window_mean_single (c : cell) : no_inf c → window_mean 1 [c] = c.
Proof.
  intros Hc. destruct c as [|b|q]; [reflexivity|by destruct (Hc b)|].
  unfold window_mean.
  assert (observations [Num q] = [Num q]) as -> by reflexivity.
  rewrite decide_False by (simpl; lia).
  cbn [foldr length cell_add]. unfold cell_div. change (Z.of_nat 1) with 1.
  rewrite decide_False by (rewrite Z2Qc_inj_1; done).
  f_equal. rewrite Qcplus_0_r, Z2Qc_inj_1. apply (right_id 1%Qc Qcdiv).
Qed.

Lemma observations_app (l k : list cell) :
  observations (l ++ k) = observations l ++ observations k.
Proof. unfold observations. apply filter_app. Qed.

Lemma window_mean_snoc_nan m (l : list cell) :
  window_mean m (l ++ [NaN]) = window_mean m l.
Proof.
  unfold window_mean. rewrite observations_app.
  change (observations [NaN]) with (@nil cell). by rewrite app_nil_r.
Qed.

Lemma column_at_lookup j (rs : list row) i t cs :
  rs !! i = Some (t, cs) → column_at j rs !! i = Some (default NaN (cs !! j)).
Proof. intros H. unfold column_at. by rewrite list_lookup_fmap, H. Qed.

Lemma rolling_mean_rows_lookup w m (rs : list row) i t cs :
  rs !! i = Some (t, cs) →
  rolling_mean_rows w m rs !! i
  = Some (t, imap (λ j _, window_mean m (window_at w i (column_at j rs))) cs).
Proof. intros H. unfold rolling_mean_rows. by rewrite list_lookup_imap, H. Qed.

Lemma rolling_mean_rows_one (rs : list row) :
  finite_rows rs → rolling_mean_rows 1 1 rs = rs.
Proof.
  intros Hf. apply list_eq. intros i.
  destruct (rs !! i) as [[t cs]|] eqn:E.
  - rewrite (rolling_mean_rows_lookup _ _ _ _ _ _ E). do 2 f_equal.
    apply list_eq. intros j. rewrite list_lookup_imap.
    destruct (cs !! j) as [c|] eqn:Ej; [|done]. simpl. f_equal.
    rewrite (window_at_one i _ c)
      by (by rewrite (column_at_lookup _ _ _ _ _ E), Ej).
    apply window_mean_single.
    eapply Forall_lookup_1 in Hf; [|exact E]. simpl in Hf.
    by eapply Forall_lookup_1 in Hf.
  - apply lookup_ge_None in E. apply lookup_ge_None.
    unfold rolling_mean_rows. by rewrite length_imap.
Qed.


Lemma null_sunday_label r : (null_sunday r).1 = r.1.
Proof. unfold null_sunday. by destruct (is_sunday r.1). Qed.

Lemma masked_rows_null_sunday today date days f :
  masked_rows today date days f
  = filter (λ r, in_window (window_start date days)
                           (window_end today date days) r = true)
           (map null_sunday (rows f)).
Proof.
  unfold masked_rows. induction (rows f) as [|r rs IH]; [done|].
  cbn [map]. rewrite !filter_cons.
  assert (in_window (window_start date days) (window_end today date days) (null_sunday r)
          = in_window (window_start date days) (window_end today date days) r) as E
    by (unfold in_window; by rewrite null_sunday_label).
  rewrite E. destruct (decide _); cbn [map]; by rewrite IH.
Qed.

Lemma masked_rows_sunday today date days f i t cs :
  masked_rows today date days f !! i = Some (t, cs) → dayofweek t = 6 →
  ∀ j, default NaN (cs !! j) = NaN.
Proof.
  unfold masked_rows. rewrite list_lookup_fmap.
  destruct (filter _ _ !! i) as [r|]; [|done]. simpl. intros [= Hr] Ht j.
  unfold null_sunday, is_sunday in Hr.
  destruct (bool_decide (dayofweek r.1 = 6)) eqn:E.
  - injection Hr as <- <-. rewrite list_lookup_fmap. by destruct (r.2 !! j).
  - apply bool_decide_eq_false in E. subst r. done.
Qed.


(** ** Running [ngram], [sumword] and the callbacks *)

Lemma extend_lookup_at w os n k o :
  n = (length (heap w) + k)%nat → os !! k = Some o →
  heap (extend w os) !! n = Some o.
Proof. intros ->. apply extend_lookup_new. Qed.

Lemma alloc_extend_at w os o n :
  n = (length (heap w) + length os)%nat →
  alloc o (extend w os) = (Ret n, extend w (os ++ [o])).
Proof. intros ->. apply alloc_extend. Qed.

Lemma store_extend_at w os n k o o' :
  n = (length (heap w) + k)%nat → os !! k = Some o' →
  store n o (extend w os) = (Ret tt, extend w (<[k := o]> os)).
Proof. intros ->. apply store_extend. Qed.

Ltac at_offset k := eapply (extend_lookup_at _ _ _ k); [simpl; lia|reflexivity].

Section NgramRuns.

Variable adapter : call → outcome object.
Variable series_truediv_frame : Series → DataFrame → outcome object.
Variable set_column_frame : string → DataFrame → DataFrame → outcome DataFrame.

Local Abbreviation ngram := (ngram adapter series_truediv_frame set_column_frame).
Local Abbreviation api_ngram_news := (api_ngram_news adapter).

Lemma api_ngram_news_ret words period title o w :
  adapter (mkCall words period title) = Ret o →
  api_ngram_news words period title w
  = (Ret (length (heap w)), extend (log_call (mkCall words period title) w) [o]).
Proof. intros H. unfold api_ngram_news. rewrite H. reflexivity. Qed.

Lemma api_ngram_news_raise words period title e w :
  adapter (mkCall words period title) = Raise e →
  api_ngram_news words period title w
  = (Raise e, log_call (mkCall words period title) w).
Proof. intros H. unfold api_ngram_news. rewrite H. reflexivity. Qed.

Lemma ngram_raw_run word mid_date title raw w :
  adapter (word_call word mid_date title) = Ret (OFrame raw) →
  ngram word mid_date EmptyString title w
  = (Ret (length (heap w) + 2)%nat,
     extend (log_call (word_call word mid_date title) w)
            [OFrame raw; OFrame (frame_fillna 0%Qc raw);
             OFrame (fetched_frame raw)]).
Proof.
  intros H. unfold_ngram.
  erewrite try_except_ret; [reflexivity|].
  rewrite bind_run, (api_ngram_news_ret _ _ _ _ _ H).
  unfold pd.fillna. rewrite !bind_run.
  erewrite get_frame_ret by at_offset 0%nat.
  erewrite (alloc_extend_at _ _ _ (length (heap w) + 1)%nat) by (simpl; lia).
  simpl app.
  unfold pd.sort_index. rewrite !bind_run.
  erewrite get_frame_ret by at_offset 1%nat.
  erewrite (alloc_extend_at _ _ _ (length (heap w) + 2)%nat) by (simpl; lia).
  simpl app.
  unfold pd.index_map_Timestamp. rewrite !bind_run.
  erewrite get_frame_ret by at_offset 2%nat.
  erewrite (store_extend_at _ _ _ 2%nat) by (simpl; lia || reflexivity).
  rewrite decide_False by (by intros ?).
  reflexivity.
Qed.

Lemma ngram_attribute_error_run word mid_date sammenlign title w :
  adapter (word_call word mid_date title) = Raise AttributeError →
  ngram word mid_date sammenlign title w
  = (Ret (length (heap w)),
     extend (log_call (word_call word mid_date title) w) [OFrame empty_frame]).
Proof.
  intros H. unfold_ngram.
  erewrite try_except_caught.
  2:{ rewrite bind_run, (api_ngram_news_raise _ _ _ _ _ H). reflexivity. }
  unfold pd.DataFrame_new. reflexivity.
Qed.

Lemma ngram_not_frame_run word mid_date sammenlign title o w :
  adapter (word_call word mid_date title) = Ret o → (∀ f, o ≠ OFrame f) →
  ngram word mid_date sammenlign title w
  = (Ret (length (heap w) + 1)%nat,
     extend (log_call (word_call word mid_date title) w)
            [o; OFrame empty_frame]).
Proof.
  intros H Ho. unfold_ngram.
  erewrite try_except_caught.
  2:{ rewrite bind_run, (api_ngram_news_ret _ _ _ _ _ H).
      unfold pd.fillna. rewrite !bind_run. unfold get_frame at 1.
      erewrite (extend_lookup_at _ _ _ 0%nat) by (simpl; lia || reflexivity).
      destruct o as [f| |]; [by destruct (Ho f)|reflexivity..]. }
  unfold pd.DataFrame_new.
  erewrite (alloc_extend_at _ _ _ (length (heap w) + 1)%nat) by (simpl; lia).
  reflexivity.
Qed.

Lemma ngram_other_error_run word mid_date sammenlign title e w :
  adapter (word_call word mid_date title) = Raise e → e ≠ AttributeError →
  ngram word mid_date sammenlign title w
  = (Raise e, log_call (word_call word mid_date title) w).
Proof.
  intros H Hne. unfold_ngram.
  erewrite try_except_other; [reflexivity| |exact Hne].
  rewrite bind_run, (api_ngram_news_raise _ _ _ _ _ H). reflexivity.
Qed.

End NgramRuns.

Lemma sort_rows_Permutation (rs : list row) : sort_rows rs ≡ₚ rs.
Proof. apply merge_sort_Permutation. Qed.

Lemma fillna_no_nan v (cs : list cell) :
  NaN ∉ cs → map (fillna_cell v) cs = cs.
Proof.
  induction cs as [|c cs IH]; [done|]. intros Hnan.
  cbn [map]. rewrite IH by (intros ?; apply Hnan; by right).
  f_equal. destruct c; try done. destruct Hnan. by left.
Qed.

Section FetchProperties.

Variable adapter : call → outcome object.
Variable series_truediv_frame : Series → DataFrame → outcome object.
Variable set_column_frame : string → DataFrame → DataFrame → outcome DataFrame.
Variable list_of_set : list string → list string.
Variable excel_bytes : DataFrame → string.

Local Abbreviation ngram := (ngram adapter series_truediv_frame set_column_frame).
Local Abbreviation sumword := (sumword adapter).
Local Abbreviation update_data :=
  (update_data adapter series_truediv_frame set_column_frame list_of_set).
Local Abbreviation update_chart := (update_chart excel_bytes).

Lemma sumword_attribute_error_run words period title w :
  adapter (mkCall (reference_words words) period title) = Raise AttributeError →
  sumword words period title w
  = (Ret (length (heap w)),
     extend (log_call (mkCall (reference_words words) period title) w)
            [OFrame empty_frame]).
Proof.
  intros H. unfold_sumword.
  erewrite try_except_caught.
  2:{ rewrite bind_run.
      rewrite (api_ngram_news_raise adapter (reference_words words) _ _ _ _ H).
      reflexivity. }
  reflexivity.
Qed.

Lemma sumword_none_run words period title w :
  adapter (mkCall (reference_words words) period title) = Ret ONone →
  sumword words period title w
  = (Ret (length (heap w) + 1)%nat,
     extend (log_call (mkCall (reference_words words) period title) w)
            [ONone; OFrame empty_frame]).
Proof.
  intros H. unfold_sumword.
  erewrite try_except_caught.
  2:{ rewrite bind_run.
      rewrite (api_ngram_news_ret adapter (reference_words words) _ _ _ _ H).
      unfold pd.sum_axis1_named. rewrite !bind_run. unfold get_frame at 1.
      erewrite (extend_lookup_at _ _ _ 0%nat) by (simpl; lia || reflexivity).
      reflexivity. }
  unfold pd.DataFrame_new.
  erewrite (alloc_extend_at _ _ _ (length (heap w) + 1)%nat) by (simpl; lia).
  reflexivity.
Qed.



End FetchProperties.

Lemma alloc_run o w : alloc o w = (Ret (length (heap w)), extend w [o]).
Proof. reflexivity. Qed.

Section PipelineProperties.

Variable adapter : call → outcome object.
Variable series_truediv_frame : Series → DataFrame → outcome object.
Variable set_column_frame : string → DataFrame → DataFrame → outcome DataFrame.
Variable list_of_set : list string → list string.
Variable excel_bytes : DataFrame → string.

Local Abbreviation ngram := (ngram adapter series_truediv_frame set_column_frame).
Local Abbreviation sumword := (sumword adapter).
Local Abbreviation update_chart := (update_chart excel_bytes).


Lemma update_chart_run j mid_date period_size smooth_slider theme alpha width
    plot_type n_clicks words avisnavn filnavn w :
  finite_frame j → 1 ≤ default 3 smooth_slider →
  let out := adjusted_frame (now w) mid_date (default max_days period_size)
               (default 3 smooth_slider) j in
  ∃ fig summ w',
    update_chart (Some j) mid_date period_size smooth_slider theme alpha width
      plot_type n_clicks words avisnavn filnavn w
    = (Ret (fig, summ,
            if decide (n_clicks > 0)
            then Some (mkDownload (excel_bytes out) filnavn) else None), w').
Proof.
  intros Hf Hs out. unfold_update_chart.
  rewrite bind_run, alloc_run, bind_run.
  rewrite (adjust_returns _ _ j) by (done || at_offset 0%nat).
  rewrite bind_run.
  erewrite get_frame_ret by at_offset 4%nat.
  destruct (decide (n_clicks > 0)).
  - unfold to_excel. rewrite !bind_run.
    erewrite get_frame_ret by at_offset 4%nat.
    eexists _, _, _. reflexivity.
  - eexists _, _, _. reflexivity.
Qed.


End PipelineProperties.

(** ** The division by the reference totals *)

Lemma series_at_cons t p vs :
  pd.series_at t (p :: vs) = if decide (p.1 = t) then p.2 else pd.series_at t vs.
Proof.
  unfold pd.series_at. cbn [list_find]. destruct (decide (p.1 = t)).
  - by destruct p.
  - destruct (list_find _ vs) as [[? [? ?]]|]; reflexivity.
Qed.

Lemma series_at_map_label (F : Timestamp → cell) (idx : list Timestamp) t :
  t ∈ idx → pd.series_at t (map (λ t, (t, F t)) idx) = F t.
Proof.
  induction idx as [|t0 idx IH]; [by intros ?%elem_of_nil|].
  intros Ht. cbn [map]. rewrite series_at_cons. simpl.
  destruct (decide (t0 = t)) as [->|Hne]; [done|].
  apply IH. apply elem_of_cons in Ht as [->|Ht]; done.
Qed.

Lemma series_at_rows (G : row → cell) (rs : list row) (r : row) :
  NoDup rs.*1 → r ∈ rs →
  pd.series_at r.1 (map (λ r, (r.1, G r)) rs) = G r.
Proof.
  induction rs as [|r0 rs IH]; [by intros _ ?%elem_of_nil|].
  cbn [fmap list_fmap]. intros [Hnotin Hnd]%NoDup_cons Hr.
  cbn [map]. rewrite series_at_cons. simpl.
  apply elem_of_cons in Hr as [->|Hr].
  - by rewrite decide_True.
  - rewrite decide_False; [by apply IH|].
    intros E. apply Hnotin. rewrite E. apply list_elem_of_fmap. by exists r.
Qed.

Lemma align_index_elem la lb t : t ∈ la → t ∈ pd.align_index la lb.
Proof.
  intros Ht. unfold pd.align_index. destruct (decide (la = lb)); [done|].
  rewrite merge_sort_Permutation. apply elem_of_remove_dups.
  apply elem_of_app. by left.
Qed.

Lemma series_truediv_at (a b : Series) t :
  t ∈ (values a).*1 →
  pd.series_at t (values (pd.series_truediv a b))
  = cell_div (pd.series_at t (values a)) (pd.series_at t (values b)).
Proof.
  intros Ht. unfold pd.series_truediv. cbn [values].
  apply (series_at_map_label
           (λ t, cell_div (pd.series_at t (values a)) (pd.series_at t (values b)))).
  by apply align_index_elem.
Qed.

Lemma divide_column_rows st x g j :
  pd.column_position x (columns g) = Some j → NoDup (index g) →
  divide_column st x g
  = mkDataFrame (columns g)
      (map (λ r : row,
              (r.1, <[j := cell_div (default NaN (r.2 !! j))
                                    (pd.series_at r.1 (values st))]> r.2))
           (rows g)).
Proof.
  intros Hj Hnd. unfold divide_column, pd.set_column. rewrite Hj. f_equal.
  apply map_ext_in. intros r Hr%list_elem_of_In. do 2 f_equal.
  rewrite series_truediv_at.
  - cbn [values]. f_equal.
    by apply (series_at_rows (λ r : row, default NaN (r.2 !! j))).
  - cbn [values]. rewrite <-list_fmap_compose.
    apply list_elem_of_fmap. by exists r.
Qed.

Lemma insert_mapped_prefix {A} (D : A → A) (l : list A) k c :
  l !! k = Some c →
  <[k := D c]> (map D (take k l) ++ drop k l)
  = map D (take (S k) l) ++ drop (S k) l.
Proof.
  intros Hk. assert (k < length l)%nat by (by eapply lookup_lt_Some).
  rewrite (take_S_r _ _ _ Hk), (drop_S _ _ _ Hk), map_app. cbn [map].
  rewrite insert_app_r_alt by (rewrite length_map, length_take; lia).
  rewrite length_map, length_take.
  replace (k - k `min` length l)%nat with 0%nat by lia.
  by rewrite <-(assoc_L (++)).
Qed.

Lemma column_position_NoDup (cols : list string) k x :
  NoDup cols → cols !! k = Some x → pd.column_position x cols = Some k.
Proof.
  intros Hnd Hk. unfold pd.column_position.
  destruct (list_find (λ y, y = x) cols) as [[i y]|] eqn:E.
  - apply list_find_Some in E as (Hi & -> & _). simpl. f_equal.
    by eapply NoDup_lookup.
  - apply list_find_None in E. rewrite Forall_forall in E.
    destruct (E x); [|done]. by eapply list_elem_of_lookup_2.
Qed.

Lemma partly_divided_index tot k g : index (partly_divided tot k g) = index g.
Proof.
  unfold index, partly_divided. cbn [rows].
  rewrite <-list_fmap_compose. by apply list_fmap_ext.
Qed.

Lemma divide_column_step st g k x :
  well_formed g → NoDup (columns g) → NoDup (index g) →
  columns g !! k = Some x →
  divide_column st x (partly_divided (values st) k g)
  = partly_divided (values st) (S k) g.
Proof.
  intros Hwf Hc Hi Hk.
  rewrite (divide_column_rows st x _ k).
  - unfold partly_divided. cbn [columns rows]. f_equal.
    rewrite map_map. apply map_ext_in. intros r Hr%list_elem_of_In. cbn [fst snd].
    f_equal. unfold well_formed in Hwf. rewrite Forall_forall in Hwf.
    specialize (Hwf r Hr).
    assert (k < length (columns g))%nat by (by eapply lookup_lt_Some).
    destruct (r.2 !! k) as [c|] eqn:Ec.
    2:{ apply lookup_ge_None in Ec. lia. }
    rewrite <-(insert_mapped_prefix (λ c, cell_div c (pd.series_at r.1 (values st))) _ _ _ Ec).
    do 2 f_equal.
    rewrite lookup_app_r by (rewrite length_map, length_take; lia).
    rewrite length_map, length_take, lookup_drop.
    replace (k + (k - k `min` length r.2))%nat with k by lia.
    by rewrite Ec.
  - cbn [columns]. by apply column_position_NoDup.
  - by rewrite partly_divided_index.
Qed.

Lemma divide_columns_fold st g k :
  well_formed g → NoDup (columns g) → NoDup (index g) →
  foldl (λ g x, divide_column st x g) (partly_divided (values st) k g)
        (drop k (columns g))
  = partly_divided (values st) (length (columns g)) g.
Proof.
  intros Hwf Hc Hi.
  remember (length (columns g) - k)%nat as n eqn:En.
  revert k En. induction n as [|n IH]; intros k En.
  - rewrite drop_ge by lia. cbn [foldl].
    unfold partly_divided. f_equal. apply map_ext_in.
    intros r Hr%list_elem_of_In. f_equal.
    unfold well_formed in Hwf. rewrite Forall_forall in Hwf. specialize (Hwf r Hr).
    rewrite !take_ge, !drop_ge by lia. done.
  - destruct (columns g !! k) as [x|] eqn:Ek.
    2:{ apply lookup_ge_None in Ek. lia. }
    rewrite (drop_S _ _ _ Ek). cbn [foldl].
    rewrite (divide_column_step st g k x Hwf Hc Hi Ek).
    apply IH. lia.
Qed.

Lemma partly_divided_0 tot g : partly_divided tot 0 g = g.
Proof.
  destruct g as [cols rs]. unfold partly_divided. cbn [columns rows]. f_equal.
  induction rs as [|[t cs] rs IH]; [done|]. cbn [map]. rewrite IH.
  by rewrite take_0, drop_0.
Qed.

Lemma partly_divided_all tot g :
  well_formed g → partly_divided tot (length (columns g)) g = divided_frame tot g.
Proof.
  intros Hwf. unfold partly_divided, divided_frame. f_equal.
  apply map_ext_in. intros r Hr%list_elem_of_In. f_equal.
  unfold well_formed in Hwf. rewrite Forall_forall in Hwf. specialize (Hwf r Hr).
  rewrite take_ge, drop_ge by lia. by rewrite app_nil_r.
Qed.

Lemma divide_all_columns st g :
  well_formed g → NoDup (columns g) → NoDup (index g) →
  foldl (λ g x, divide_column st x g) g (columns g) = divided_frame (values st) g.
Proof.
  intros Hwf Hc Hi.
  rewrite <-(partly_divided_all _ _ Hwf).
  rewrite <-(divide_columns_fold st g 0 Hwf Hc Hi).
  by rewrite partly_divided_0.
Qed.

Lemma get_series_ret r s w :
  heap w !! r = Some (OSeries s) → get_series r w = (Ret s, w).
Proof. intros H. unfold get_series. by rewrite H. Qed.

Lemma get_object_ret r o w :
  heap w !! r = Some o → get_object r w = (Ret o, w).
Proof. intros H. unfold get_object. by rewrite H. Qed.

Lemma divide_column_columns st x g :
  is_Some (pd.column_position x (columns g)) →
  columns (divide_column st x g) = columns g.
Proof.
  intros [j Hj]. unfold divide_column, pd.set_column. by rewrite Hj.
Qed.

Section DivisionRuns.

Variable adapter : call → outcome object.
Variable series_truediv_frame : Series → DataFrame → outcome object.
Variable set_column_frame : string → DataFrame → DataFrame → outcome DataFrame.

Local Abbreviation ngram := (ngram adapter series_truediv_frame set_column_frame).
Local Abbreviation sumword := (sumword adapter).
Local Abbreviation divide_columns :=
  (divide_columns series_truediv_frame set_column_frame).

Lemma divide_columns_run res tot st xs : ∀ w g,
  heap w !! res = Some (OFrame g) → heap w !! tot = Some (OSeries st) →
  Forall (λ x, is_Some (pd.column_position x (columns g))) xs →
  ∃ w', divide_columns res tot xs w = (Ret tt, w') ∧
        heap w' !! res = Some (OFrame (foldl (λ g x, divide_column st x g) g xs)) ∧
        heap w' !! tot = Some (OSeries st) ∧
        calls w' = calls w.
Proof.
  induction xs as [|x xs IH]; intros w g Hres Htot Hxs.
  - exists w. by repeat split.
  - apply Forall_cons in Hxs as [[j Hj] Hxs].
    assert (res ≠ tot) as Hne by (intros ->; congruence).
    assert (res < length (heap w))%nat as Hlt by (by eapply lookup_lt_Some).
    cbn_divide_columns. rewrite bind_run.
    unfold pd.getitem. rewrite bind_run, (get_frame_ret _ _ _ Hres), Hj, alloc_run.
    rewrite bind_run. unfold truediv. rewrite !bind_run.
    erewrite get_series_ret by at_offset 0%nat. rewrite ?bind_run.
    erewrite get_object_ret by (by apply extend_lookup_old). lazy beta iota.
    erewrite (alloc_extend_at _ _ _ (length (heap w) + 1)%nat) by (simpl; lia).
    simpl app. rewrite ?bind_run. unfold setitem. rewrite ?bind_run.
    erewrite get_frame_ret by (by apply extend_lookup_old). rewrite ?bind_run.
    erewrite get_object_ret by at_offset 1%nat. lazy beta iota.
    unfold store at 1.
    match goal with |- context [divide_columns res tot xs ?w1] =>
      destruct (IH w1 (divide_column st x g)) as (w' & Hrun & H1 & H2 & H3) end.
    + cbn [heap]. unfold divide_column. rewrite Hj.
      apply list_lookup_insert_eq. simpl. rewrite length_app. lia.
    + cbn [heap]. rewrite list_lookup_insert_ne by done.
      simpl. by apply lookup_app_l_Some.
    + eapply Forall_impl; [exact Hxs|]. intros y Hy.
      rewrite divide_column_columns; [done|by exists j].
    + exists w'. by rewrite Hrun.
Qed.

Lemma sumword_run words period title refraw w :
  adapter (mkCall (reference_words words) period title) = Ret (OFrame refraw) →
  sumword words period title w
  = (Ret (length (heap w) + 1)%nat,
     extend (log_call (mkCall (reference_words words) period title) w)
            [OFrame refraw; OSeries (mkSeries "tot" (reference_totals refraw))]).
Proof.
  intros H. unfold_sumword.
  erewrite try_except_ret; [reflexivity|].
  rewrite bind_run.
  rewrite (api_ngram_news_ret adapter (reference_words words) _ _ _ _ H).
  unfold pd.sum_axis1_named. rewrite !bind_run.
  erewrite get_frame_ret by at_offset 0%nat.
  erewrite (alloc_extend_at _ _ _ (length (heap w) + 1)%nat) by (simpl; lia).
  simpl app. unfold pd.series_index_map_Timestamp. rewrite !bind_run.
  erewrite get_series_ret by at_offset 1%nat.
  erewrite (store_extend_at _ _ _ 1%nat) by (simpl; lia || reflexivity).
  reflexivity.
Qed.

Lemma ngram_reference_run word mid_date sammenlign title raw refraw w :
  sammenlign ≠ EmptyString →
  adapter (word_call word mid_date title) = Ret (OFrame raw) →
  adapter (mkCall (reference_words sammenlign)
             (mid_date - max_days, mid_date + max_days) title)
  = Ret (OFrame refraw) →
  ∃ w', ngram word mid_date sammenlign title w
        = (Ret (length (heap w) + 2)%nat, w') ∧
        heap w' !! (length (heap w) + 2)%nat
        = Some (OFrame (foldl (λ g x, divide_column
                                        (mkSeries "tot" (reference_totals refraw)) x g)
                              (fetched_frame raw) (columns raw))).
Proof.
  intros Hs H Href. unfold_ngram.
  set (W1 := extend (log_call (word_call word mid_date title) w)
               [OFrame raw; OFrame (frame_fillna 0%Qc raw);
                OFrame (fetched_frame raw)]).
  set (W2 := extend (log_call (mkCall (reference_words sammenlign)
               (mid_date - max_days, mid_date + max_days) title) W1)
               [OFrame refraw; OSeries (mkSeries "tot" (reference_totals refraw))]).
  destruct (divide_columns_run (length (heap w) + 2)%nat (length (heap W1) + 1)%nat
              (mkSeries "tot" (reference_totals refraw)) (columns raw)
              W2 (fetched_frame raw)) as (w' & Hrun & Hres & _ & _).
  { apply extend_lookup_old. simpl. at_offset 2%nat. }
  { at_offset 1%nat. }
  { apply Forall_forall. intros x Hx. cbn [fetched_frame columns].
    unfold pd.column_position.
    destruct (list_find (λ y, y = x) (columns raw)) as [p|] eqn:E; [by eexists|].
    apply list_find_None in E. rewrite Forall_forall in E. by destruct (E x). }
  exists w'. split; [|exact Hres].
  erewrite try_except_ret; [reflexivity|].
  rewrite bind_run, (api_ngram_news_ret _ _ _ _ _ _ H).
  unfold pd.fillna. rewrite !bind_run.
  erewrite get_frame_ret by at_offset 0%nat.
  erewrite (alloc_extend_at _ _ _ (length (heap w) + 1)%nat) by (simpl; lia).
  simpl app.
  unfold pd.sort_index. rewrite !bind_run.
  erewrite get_frame_ret by at_offset 1%nat.
  erewrite (alloc_extend_at _ _ _ (length (heap w) + 2)%nat) by (simpl; lia).
  simpl app.
  unfold pd.index_map_Timestamp. rewrite !bind_run.
  erewrite get_frame_ret by at_offset 2%nat.
  erewrite (store_extend_at _ _ _ 2%nat) by (simpl; lia || reflexivity).
  rewrite decide_True by done. rewrite !bind_run.
  cbn [list_insert insert]. fold (fetched_frame raw). fold W1.
  rewrite (sumword_run _ _ _ _ _ Href). fold W2.
  unfold pd.frame_columns. rewrite !bind_run.
  erewrite get_frame_ret by (apply extend_lookup_old; simpl; at_offset 2%nat).
  unfold ret at 1. cbn [fetched_frame columns].
  replace_divide_columns w' Hrun.
  reflexivity.
Qed.

End DivisionRuns.

Lemma cell_div_unit_interval (q T : Qc) :
  (0 ≤ q)%Qc → (q ≤ T)%Qc → (0 < T)%Qc →
  ∃ v, cell_div (Num q) (Num T) = Num v ∧ (0 ≤ v)%Qc ∧ (v ≤ 1)%Qc.
Proof.
  intros Hq HqT HT.
  assert (T ≠ 0%Qc) as Hne by (intros ->; by apply (Qclt_not_eq _ _ HT)).
  exists (q / T)%Qc. unfold cell_div. rewrite decide_False by done.
  split; [done|]. unfold Qcdiv. split.
  - apply Qcmult_nonneg_nonneg; [done|]. by apply Qclt_le_weak, Qcinv_pos.
  - rewrite <-(Qcmult_inv_r T Hne).
    apply Qcmult_le_mono_nonneg_r; [|done]. by apply Qclt_le_weak, Qcinv_pos.
Qed.

Lemma fetched_frame_rows raw (r : row) :
  r ∈ rows (fetched_frame raw) ↔
  ∃ r0 : row, r0 ∈ rows raw ∧ r = (r0.1, map (fillna_cell 0%Qc) r0.2).
Proof.
  cbn [fetched_frame rows]. rewrite sort_rows_Permutation.
  unfold frame_fillna, map_cells. cbn [rows].
  rewrite list_elem_of_fmap. split.
  - intros (r0 & -> & Hr0). by exists r0.
  - intros (r0 & Hr0 & ->). by exists r0.
Qed.

Lemma fetched_frame_index raw : index (fetched_frame raw) ≡ₚ index raw.
Proof.
  unfold index. cbn [fetched_frame rows]. rewrite sort_rows_Permutation.
  unfold frame_fillna, map_cells. cbn [rows].
  rewrite <-list_fmap_compose. by erewrite list_fmap_ext.
Qed.

Lemma fetched_frame_well_formed raw :
  well_formed raw → well_formed (fetched_frame raw).
Proof.
  unfold well_formed. rewrite !Forall_forall. intros H r Hr.
  apply fetched_frame_rows in Hr as (r0 & Hr0 & ->). simpl.
  rewrite length_map. by apply H.
Qed.

Section Ratio.

Variable adapter : call → outcome object.
Variable series_truediv_frame : Series → DataFrame → outcome object.
Variable set_column_frame : string → DataFrame → DataFrame → outcome DataFrame.

Local Abbreviation ngram := (ngram adapter series_truediv_frame set_column_frame).

(** Claim C6, for positive reference totals.  With a reference list that is
    not empty, a well-formed adapter frame with unique column labels and dates,
    and at every date a reference total [T > 0] with every count of that date
    (a missing count read as 0) between 0 and [T], [ngram] returns the frame of
    the quotients, and every value of it lies in [[0, 1]]. *)
Theorem ngram_ratio_in_unit_interval word mid_date sammenlign title raw refraw w :
  sammenlign ≠ EmptyString →
  adapter (word_call word mid_date title) = Ret (OFrame raw) →
  adapter (mkCall (reference_words sammenlign)
             (mid_date - max_days, mid_date + max_days) title)
  = Ret (OFrame refraw) →
  well_formed raw → NoDup (columns raw) → NoDup (index raw) →
  (∀ t cs, (t, cs) ∈ rows raw →
     ∃ T, pd.series_at t (reference_totals refraw) = Num T ∧ (0 < T)%Qc ∧
          ∀ c, c ∈ cs →
               ∃ q, fillna_cell 0%Qc c = Num q ∧ (0 ≤ q)%Qc ∧ (q ≤ T)%Qc) →
  ∃ r w',
    ngram word mid_date sammenlign title w = (Ret r, w') ∧
    heap w' !! r
    = Some (OFrame (divided_frame (reference_totals refraw) (fetched_frame raw))) ∧
    ∀ t cs c,
      (t, cs) ∈ rows (divided_frame (reference_totals refraw) (fetched_frame raw)) →
      c ∈ cs → ∃ v, c = Num v ∧ (0 ≤ v)%Qc ∧ (v ≤ 1)%Qc.
Proof.
  intros Hs H Href Hwf Hcols Hidx Hle.
  destruct (ngram_reference_run adapter series_truediv_frame set_column_frame
              word mid_date sammenlign title raw refraw w Hs H Href)
    as (w' & Hrun & Hres).
  exists (length (heap w) + 2)%nat, w'. split; [exact Hrun|]. split.
  - rewrite Hres. do 2 f_equal.
    apply (divide_all_columns (mkSeries "tot" (reference_totals refraw))
             (fetched_frame raw)).
    + by apply fetched_frame_well_formed.
    + exact Hcols.
    + by rewrite fetched_frame_index.
  - intros t cs c Hr Hc. unfold divided_frame in Hr. cbn [rows] in Hr.
    apply list_elem_of_fmap in Hr as (r1 & [= -> ->] & Hr1).
    apply fetched_frame_rows in Hr1 as ([t0 cs0] & Hr0 & ->). simpl in *.
    apply list_elem_of_fmap in Hc as (c1 & -> & Hc1).
    apply list_elem_of_fmap in Hc1 as (c0 & -> & Hc0).
    destruct (Hle t0 cs0 Hr0) as (T & -> & HT & Hcs).
    destruct (Hcs c0 Hc0) as (q & -> & Hq & HqT).
    by apply cell_div_unit_interval.
Qed.

End Ratio.

(** * The statements on concrete inputs *)

Lemma finite_week : finite_frame week.
Proof. repeat constructor; intros b; discriminate. Qed.










(** Claim C6 fails where the reference total is 0: the count 0 is at most the
    total 0, and the quotient is NaN. *)
Lemma ratio_zero_reference_counterexample :
  pd.series_at (Timestamp_ymd 2026 10 30) (reference_totals zero_day) = count 0 ∧
  frame_result (ngram (adapter_const zero_day) no_truediv no_set_column ["frihet"]
                  (days_from_civil 2020 7 1) "og" None empty_world)
  = Ret (mkDataFrame ["frihet"] [(Timestamp_ymd 2026 10 30, [NaN])]).
Proof. split; compute_done. Qed.

Lemma two_days_bounded t cs :
  (t, cs) ∈ rows two_days →
  ∃ T, pd.series_at t (reference_totals two_days) = Num T ∧ (0 < T)%Qc ∧
       ∀ c, c ∈ cs → ∃ q, fillna_cell 0%Qc c = Num q ∧ (0 ≤ q)%Qc ∧ (q ≤ T)%Qc.
Proof.
  intros H. cbn [two_days rows] in H.
  apply elem_of_cons in H as [[= -> ->]|H].
  - exists (Qc_of_Z 2). split; [compute_done|]. split; [compute_done|].
    intros c ->%list_elem_of_singleton. exists (Qc_of_Z 2).
    split; [reflexivity|]. split; compute_done.
  - apply list_elem_of_singleton in H as [= -> ->].
    exists (Qc_of_Z 3). split; [compute_done|]. split; [compute_done|].
    intros c ->%list_elem_of_singleton. exists (Qc_of_Z 3).
    split; [reflexivity|]. split; compute_done.
Qed.

(** The statement of C6 for the adapter that answers with [two_days], taken
    as its own reference. *)
Lemma ngram_ratio_witness :
  ∃ r w',
    ngram (adapter_const two_days) no_truediv no_set_column ["frihet"]
      (days_from_civil 2020 7 1) "frihet" None empty_world = (Ret r, w') ∧
    heap w' !! r
    = Some (OFrame (divided_frame (reference_totals two_days)
                      (fetched_frame two_days))) ∧
    ∀ t cs c,
      (t, cs) ∈ rows (divided_frame (reference_totals two_days)
                        (fetched_frame two_days)) →
      c ∈ cs → ∃ v, c = Num v ∧ (0 ≤ v)%Qc ∧ (v ≤ 1)%Qc.
Proof.
  apply (ngram_ratio_in_unit_interval (adapter_const two_days) no_truediv
           no_set_column ["frihet"] (days_from_civil 2020 7 1) "frihet" None
           two_days two_days empty_world).
  - discriminate.
  - reflexivity.
  - reflexivity.
  - repeat constructor.
  - compute_done.
  - compute_done.
  - exact two_days_bounded.
Defined.

(** Claim C7 fails when the clock moves past a date of the series between the
    two calls: one hour before 2026-11-03 the output has no row, one hour
    after it has the row of 2026-11-03. *)
Lemma adjust_clock_counterexample :
  frame_result (adjust 0%nat (days_from_civil 2026 11 3) 3 1 evening_world)
  = Ret (mkDataFrame ["frihet"] []) ∧
  frame_result (adjust 0%nat (days_from_civil 2026 11 3) 3 1
                  (set_now one_hour_later
                     (adjust 0%nat (days_from_civil 2026 11 3) 3 1 evening_world).2))
  = Ret (mkDataFrame ["frihet"] [(Timestamp_ymd 2026 11 3, [count 4])]).
Proof. split; vm_compute; reflexivity. Qed.

(** The statement of C7 for the frame [week], whose window ends before both
    clock readings. *)
Lemma adjust_repeatable_witness :
  frame_result (adjust 0%nat (days_from_civil 2026 11 1) 2 3
                  (set_now one_hour_later
                     (adjust 0%nat (days_from_civil 2026 11 1) 2 3 week_world).2))
  = frame_result (adjust 0%nat (days_from_civil 2026 11 1) 2 3 week_world).
Proof.
  apply (adjust_repeatable week_world 0%nat week); reflexivity.
Defined.


(** The statement of C9 for the frame [week]. *)
Lemma adjust_preserves_store_witness :
  heap (adjust 0%nat (days_from_civil 2026 11 1) 10 3 week_world).2 !! 0%nat
  = Some (OFrame week) ∧
  ∀ r o, heap week_world !! r = Some o →
         heap (adjust 0%nat (days_from_civil 2026 11 1) 10 3 week_world).2 !! r
         = Some o.
Proof.
  apply (adjust_preserves_store week_world 0%nat week). reflexivity.
Defined.


(** * Further properties *)

(** ** Truncation *)

Lemma trunc_of_Z z : trunc (Qc_of_Z z) = z.
Proof. unfold trunc. simpl. apply Z.quot_1_r. Qed.

Lemma Qc_nonneg_num (q : Qc) : (0 ≤ q)%Qc ↔ 0 ≤ Qnum q.
Proof. unfold Qcle, Qle. simpl. lia. Qed.

Lemma trunc_nonneg (q : Qc) : (0 ≤ q)%Qc → 0 ≤ trunc q.
Proof.
  rewrite Qc_nonneg_num. intros H. unfold trunc.
  apply Z.quot_pos; lia.
Qed.

Lemma trunc_le (q : Qc) : (0 ≤ q)%Qc → (Qc_of_Z (trunc q) ≤ q)%Qc.
Proof.
  rewrite Qc_nonneg_num. intros H. unfold Qcle, Qle, trunc. simpl.
  rewrite Z.quot_div_nonneg by lia.
  pose proof (Z.mul_div_le (Qnum q) (Z.pos (Qden q))). lia.
Qed.

Lemma trunc_small (q : Qc) : (0 ≤ q)%Qc → (q < 1)%Qc → trunc q = 0.
Proof.
  rewrite Qc_nonneg_num. intros H0 H1. unfold Qclt, Qlt in H1. simpl in H1.
  unfold trunc. apply Z.quot_small. lia.
Qed.

(** ** Means of bounded values *)

Lemma sum_cells_Qc_sum (obs : list cell) :
  Forall is_num obs → foldr cell_add (Num 0%Qc) obs = Num (Qc_sum obs).
Proof.
  induction 1 as [|c obs [q ->] _ IH]; [reflexivity|].
  cbn [foldr Qc_sum]. fold (Qc_sum obs). by rewrite IH.
Qed.

Lemma Qc_of_nat_S (n : nat) :
  Qc_of_Z (Z.of_nat (S n)) = (1 + Qc_of_Z (Z.of_nat n))%Qc.
Proof. rewrite Nat2Z.inj_succ, <-Z.add_1_l, Z2Qc_inj_add, Z2Qc_inj_1. done. Qed.

Lemma Qc_sum_lower (a : Qc) (obs : list cell) :
  Forall (λ c, ∃ q, c = Num q ∧ (a ≤ q)%Qc) obs →
  (Qc_of_Z (Z.of_nat (length obs)) * a ≤ Qc_sum obs)%Qc.
Proof.
  induction 1 as [|c obs (q & -> & Hq) _ IH].
  - cbn [length]. change (Z.of_nat 0) with 0.
    rewrite Z2Qc_inj_0, Qcmult_0_l. done.
  - cbn [length Qc_sum foldr]. fold (Qc_sum obs).
    rewrite Qc_of_nat_S, Qcmult_plus_distr_l, Qcmult_1_l.
    by apply Qcplus_le_compat.
Qed.

Lemma Qc_sum_upper (b : Qc) (obs : list cell) :
  Forall (λ c, ∃ q, c = Num q ∧ (q ≤ b)%Qc) obs →
  (Qc_sum obs ≤ Qc_of_Z (Z.of_nat (length obs)) * b)%Qc.
Proof.
  induction 1 as [|c obs (q & -> & Hq) _ IH].
  - cbn [length]. change (Z.of_nat 0) with 0.
    rewrite Z2Qc_inj_0, Qcmult_0_l. done.
  - cbn [length Qc_sum foldr]. fold (Qc_sum obs).
    rewrite Qc_of_nat_S, Qcmult_plus_distr_l, Qcmult_1_l.
    by apply Qcplus_le_compat.
Qed.

Lemma Qc_of_nat_S_pos (n : nat) : (0 < Qc_of_Z (Z.of_nat (S n)))%Qc.
Proof. rewrite <-Z2Qc_inj_0. apply (proj1 (Z2Qc_inj_lt 0 _)). lia. Qed.

Lemma Qc_div_lower (a s n : Qc) : (0 < n)%Qc → (n * a ≤ s)%Qc → (a ≤ s / n)%Qc.
Proof.
  intros Hn H. apply (Qcmult_le_mono_pos_l _ _ n Hn).
  rewrite Qcmult_div_r; [done|]. intros ->. by apply (Qclt_not_eq _ _ Hn).
Qed.

Lemma Qc_div_upper (b s n : Qc) : (0 < n)%Qc → (s ≤ n * b)%Qc → (s / n ≤ b)%Qc.
Proof.
  intros Hn H. apply (Qcmult_le_mono_pos_l _ _ n Hn).
  rewrite Qcmult_div_r; [done|]. intros ->. by apply (Qclt_not_eq _ _ Hn).
Qed.

Lemma window_mean_between a b (win : list cell) :
  Forall (cell_between a b) win → cell_between a b (window_mean 1 win).
Proof.
  intros H. unfold window_mean.
  assert (Forall (λ c, ∃ q, c = Num q ∧ (a ≤ q)%Qc ∧ (q ≤ b)%Qc) (observations win))
    as Hobs.
  { unfold observations. apply Forall_forall. intros c [Hn Hc]%list_elem_of_filter.
    rewrite Forall_forall in H. destruct (H c Hc) as [->|?]; done. }
  destruct (decide _); [by left|].
  destruct (observations win) as [|c obs] eqn:E; [by left|]. right.
  rewrite sum_cells_Qc_sum
    by (eapply Forall_impl; [exact Hobs|]; intros ? (q & -> & _); by eexists).
  unfold cell_div.
  rewrite decide_False by (intros Hz; by apply (Qclt_not_eq _ _ (Qc_of_nat_S_pos (length obs)))).
  eexists. split; [reflexivity|]. split.
  - apply Qc_div_lower; [apply Qc_of_nat_S_pos|].
    apply (Qc_sum_lower a (c :: obs)).
    eapply Forall_impl; [exact Hobs|]. intros ? (q & -> & ? & _). by eexists.
  - apply Qc_div_upper; [apply Qc_of_nat_S_pos|].
    apply (Qc_sum_upper b (c :: obs)).
    eapply Forall_impl; [exact Hobs|]. intros ? (q & -> & _ & ?). by eexists.
Qed.

Lemma Qc_sum_below (b : Qc) (c : cell) (obs : list cell) :
  Forall (λ c, ∃ q, c = Num q ∧ (q < b)%Qc) (c :: obs) →
  (Qc_sum (c :: obs) < Qc_of_Z (Z.of_nat (length (c :: obs))) * b)%Qc.
Proof.
  intros [(q & -> & Hq) Hobs]%Forall_cons.
  cbn [length Qc_sum foldr]. fold (Qc_sum obs).
  rewrite Qc_of_nat_S, Qcmult_plus_distr_l, Qcmult_1_l.
  apply Qclt_le_trans with (b + Qc_sum obs)%Qc.
  - by apply Qcplus_lt_mono_r.
  - apply Qcplus_le_mono_l. apply Qc_sum_upper.
    eapply Forall_impl; [exact Hobs|]. intros ? (q' & -> & ?).
    eexists. split; [done|]. by apply Qclt_le_weak.
Qed.

Lemma Qc_div_below (b s n : Qc) : (0 < n)%Qc → (s < n * b)%Qc → (s / n < b)%Qc.
Proof.
  intros Hn H. apply (Qcmult_lt_mono_pos_l _ _ n Hn).
  rewrite Qcmult_div_r; [done|]. intros ->. by apply (Qclt_not_eq _ _ Hn).
Qed.

Lemma window_mean_below a b (win : list cell) :
  Forall (cell_below a b) win → cell_below a b (window_mean 1 win).
Proof.
  intros H. unfold window_mean.
  assert (Forall (λ c, ∃ q, c = Num q ∧ (a ≤ q)%Qc ∧ (q < b)%Qc) (observations win))
    as Hobs.
  { unfold observations. apply Forall_forall. intros c [Hn Hc]%list_elem_of_filter.
    rewrite Forall_forall in H. destruct (H c Hc) as [->|?]; done. }
  destruct (decide _); [by left|].
  destruct (observations win) as [|c obs] eqn:E; [by left|]. right.
  rewrite sum_cells_Qc_sum
    by (eapply Forall_impl; [exact Hobs|]; intros ? (q & -> & _); by eexists).
  unfold cell_div.
  rewrite decide_False by (intros Hz; by apply (Qclt_not_eq _ _ (Qc_of_nat_S_pos (length obs)))).
  eexists. split; [reflexivity|]. split.
  - apply Qc_div_lower; [apply Qc_of_nat_S_pos|].
    apply (Qc_sum_lower a (c :: obs)).
    eapply Forall_impl; [exact Hobs|]. intros ? (q & -> & ? & _). by eexists.
  - apply Qc_div_below; [apply Qc_of_nat_S_pos|].
    apply (Qc_sum_below b c obs).
    eapply Forall_impl; [exact Hobs|]. intros ? (q & -> & _ & ?). by eexists.
Qed.

(** ** Properties of the cells through [adjust] *)

Lemma masked_rows_cells (P : cell → Prop) today date days f :
  P NaN → cells_of f P →
  Forall (λ r : row, Forall P r.2) (masked_rows today date days f).
Proof.
  intros HP H. unfold masked_rows. apply Forall_map, Forall_forall.
  intros r [_ Hr]%list_elem_of_filter.
  unfold cells_of in H. rewrite Forall_forall in H. specialize (H r Hr).
  unfold null_sunday. destruct (is_sunday r.1); [|done].
  simpl. by apply Forall_map, Forall_true.
Qed.

Lemma rolling_mean_rows_cells (P : cell → Prop) w (rs : list row) :
  P NaN → (∀ win, Forall P win → P (window_mean 1 win)) →
  Forall (λ r : row, Forall P r.2) rs →
  Forall (λ r : row, Forall P r.2) (rolling_mean_rows w 1 rs).
Proof.
  intros HP Hmean H. unfold rolling_mean_rows.
  apply Forall_lookup. intros i r. rewrite list_lookup_imap.
  destruct (rs !! i) as [r0|]; [|done]. intros [= <-]. simpl.
  apply Forall_lookup. intros j c. rewrite list_lookup_imap.
  destruct (r0.2 !! j); [|done]. intros [= <-].
  apply Hmean. unfold window_at. apply Forall_drop, Forall_take.
  unfold column_at. apply Forall_map. eapply Forall_impl; [exact H|].
  intros r Hr. simpl. destruct (r.2 !! j) as [c|] eqn:E; simpl; [|done].
  by eapply Forall_lookup_1 in Hr.
Qed.

Lemma cells_finite (P : cell → Prop) f :
  (∀ b, ¬ P (Inf b)) → cells_of f P → finite_frame f.
Proof.
  intros HP H. unfold finite_frame. eapply Forall_impl; [exact H|].
  intros r Hr. eapply Forall_impl; [exact Hr|]. intros c Hc b ->. by apply (HP b).
Qed.

Lemma cell_between_no_inf a b s : ¬ cell_between a b (Inf s).
Proof. by intros [?|(q & ? & _)]. Qed.

Lemma cell_below_no_inf a b s : ¬ cell_below a b (Inf s).
Proof. by intros [?|(q & ? & _)]. Qed.

Lemma adjusted_frame_cells (P Q : cell → Prop) today date days smooth f :
  P NaN → (∀ win, Forall P win → P (window_mean 1 win)) →
  (∀ c, P c → Q (int_cell c)) →
  cells_of f P → cells_of (adjusted_frame today date days smooth f) Q.
Proof.
  intros HP Hmean HQ H. unfold cells_of, adjusted_frame, map_cells. cbn [rows].
  apply Forall_map. 
  eapply Forall_impl.
  { apply (rolling_mean_rows_cells P); [done..|]. by apply masked_rows_cells. }
  intros r Hr. simpl. apply Forall_map. eapply Forall_impl; [exact Hr|]. done.
Qed.



Lemma masked_rows_labels today date days f :
  (masked_rows today date days f).*1
  = filter (λ t, window_start date days ≤ t ∧ t ≤ window_end today date days)
           (index f).
Proof.
  unfold masked_rows, index. induction (rows f) as [|r rs IH]; [reflexivity|].
  rewrite filter_cons. cbn [fmap list_fmap]. rewrite filter_cons.
  destruct (decide (in_window _ _ r = true)) as [E|E].
  - unfold in_window in E. apply andb_prop in E as [E1%bool_decide_eq_true E2%bool_decide_eq_true].
    rewrite decide_True by done. cbn [map fmap list_fmap].
    rewrite null_sunday_label. f_equal. exact IH.
  - rewrite decide_False; [exact IH|]. intros [E1 E2]. apply E.
    unfold in_window. apply andb_true_intro.
    split; by apply bool_decide_eq_true.
Qed.

Lemma adjusted_frame_index today date days smooth f :
  index (adjusted_frame today date days smooth f)
  = filter (λ t, window_start date days ≤ t ∧ t ≤ window_end today date days)
           (index f).
Proof.
  unfold adjusted_frame. rewrite map_cells_index. unfold index. cbn [rows].
  rewrite rolling_mean_rows_index. apply masked_rows_labels.
Qed.

Lemma adjusted_frame_well_formed today date days smooth f :
  well_formed f → well_formed (adjusted_frame today date days smooth f).
Proof.
  unfold well_formed, adjusted_frame, map_cells. cbn [rows columns].
  intros H. apply Forall_map. unfold rolling_mean_rows.
  apply Forall_lookup. intros i r. rewrite list_lookup_imap.
  destruct (masked_rows today date days f !! i) as [r0|] eqn:E; [|done].
  intros [= <-]. simpl. rewrite length_map, length_imap.
  unfold masked_rows in E. rewrite list_lookup_fmap in E.
  destruct (filter _ _ !! i) as [r1|] eqn:E1; [|done]. injection E as <-.
  apply list_elem_of_lookup_2, list_elem_of_filter in E1 as [_ Hr1].
  rewrite Forall_forall in H. specialize (H r1 Hr1).
  unfold null_sunday. destruct (is_sunday r1.1); [|done]. simpl. by rewrite length_map.
Qed.


(** ** Window 1: a second pass changes nothing *)

Lemma int_cell_idemp c : int_cell (int_cell c) = int_cell c.
Proof. destruct c; simpl; by rewrite trunc_of_Z. Qed.

Lemma int_cell_no_inf c : no_inf (int_cell c).
Proof. intros b. by destruct c. Qed.

Lemma adjusted_frame_one today date days f :
  finite_frame f →
  adjusted_frame today date days 1 f
  = map_cells int_cell (mkDataFrame (columns f) (masked_rows today date days f)).
Proof.
  intros Hf. unfold adjusted_frame. change (Z.to_nat 1) with 1%nat.
  by rewrite rolling_mean_rows_one by (by apply masked_rows_finite).
Qed.

Lemma adjusted_frame_one_finite today date days f :
  finite_frame (map_cells int_cell
                  (mkDataFrame (columns f) (masked_rows today date days f))).
Proof.
  unfold finite_frame, map_cells. cbn [rows]. apply Forall_map, Forall_true.
  intros r. simpl. apply Forall_map, Forall_true. intros c. apply int_cell_no_inf.
Qed.

Lemma filter_all {A} (P : A → Prop) `{∀ x, Decision (P x)} (l : list A) :
  Forall P l → filter P l = l.
Proof.
  induction 1 as [|x l Hx _ IH]; [reflexivity|].
  by rewrite filter_cons_True, IH.
Qed.

Lemma masked_rows_idemp today date days cols f :
  masked_rows today date days
    (map_cells int_cell (mkDataFrame cols (masked_rows today date days f)))
  = map (λ r : row, (r.1, map (λ c, if is_sunday r.1 then NaN else int_cell c) r.2))
        (masked_rows today date days f).
Proof.
  unfold masked_rows at 1. unfold map_cells. cbn [rows].
  rewrite filter_all.
  - rewrite map_map. apply map_ext. intros [t cs]. unfold null_sunday. simpl.
    destruct (is_sunday t); [|done]. by rewrite !map_map.
  - apply Forall_map, Forall_forall. intros r Hr. simpl.
    unfold masked_rows in Hr. apply list_elem_of_fmap in Hr as (r0 & -> & Hr0).
    apply list_elem_of_filter in Hr0 as [Hw _].
    unfold in_window in *. by rewrite null_sunday_label.
Qed.

Lemma adjusted_frame_one_idemp today date days f :
  finite_frame f →
  adjusted_frame today date days 1 (adjusted_frame today date days 1 f)
  = adjusted_frame today date days 1 f.
Proof.
  intros Hf. rewrite (adjusted_frame_one _ _ _ f Hf).
  rewrite adjusted_frame_one by apply adjusted_frame_one_finite.
  unfold map_cells at 1. cbn [columns rows].
  rewrite masked_rows_idemp. unfold map_cells. cbn [columns rows]. f_equal.
  rewrite map_map. apply map_ext_in. intros [t cs] Hr%list_elem_of_In. simpl. f_equal.
  rewrite map_map.
  destruct (is_sunday t) eqn:E.
  - unfold masked_rows in Hr. apply list_elem_of_fmap in Hr as (r0 & Hr0 & _).
    unfold null_sunday in Hr0. destruct (is_sunday r0.1) eqn:E0.
    + injection Hr0 as -> ->. rewrite !map_map. reflexivity.
    + subst r0. simpl in E0. congruence.
  - apply map_ext. intros c. by rewrite int_cell_idemp.
Qed.

Lemma adjusted_frame_one_is_finite today date days f :
  finite_frame f → finite_frame (adjusted_frame today date days 1 f).
Proof.
  intros Hf. rewrite adjusted_frame_one by done. apply adjusted_frame_one_finite.
Qed.


(** ** The words [sumword] asks for *)

Lemma split_comma_not_nil s : split_comma s ≠ [].
Proof.
  destruct s as [|c s]; [done|]. cbn [split_comma].
  destruct (Ascii.eqb _ _); [done|]. by destruct (split_comma s).
Qed.

Lemma reference_words_not_nil words : reference_words words ≠ [].
Proof.
  unfold reference_words. simpl. destruct (bool_decide _); [done|].
  intros H%fmap_nil_inv. by apply (split_comma_not_nil words).
Qed.

Lemma reference_words_no_empty words : EmptyString ∉ reference_words words.
Proof.
  unfold reference_words. simpl. destruct (bool_decide _) eqn:E.
  - intros [H|H]%elem_of_cons; [done|].
    by apply list_elem_of_filter in H as [H _].
  - by apply bool_decide_eq_false in E.
Qed.

Lemma reference_words_sentinel words :
  "," ∈ reference_words words ↔
  EmptyString ∈ map strip (split_comma words) ∨ "," ∈ map strip (split_comma words).
Proof.
  unfold reference_words. simpl. destruct (bool_decide _) eqn:E.
  - apply bool_decide_eq_true in E. split; [by left|]. intros _. by left.
  - apply bool_decide_eq_false in E. split; [by right|]. by intros [?|?].
Qed.

(** ** Row sums *)

Lemma Qc_sum_nonneg (obs : list cell) :
  Forall (λ c, ∃ q, c = Num q ∧ (0 ≤ q)%Qc) obs → (0 ≤ Qc_sum obs)%Qc.
Proof.
  induction 1 as [|c obs (q & -> & Hq) _ IH]; [done|].
  cbn [Qc_sum foldr]. fold (Qc_sum obs). by apply Qcplus_nonneg_nonneg.
Qed.

Lemma Qc_sum_dominates (obs : list cell) q :
  Forall (λ c, ∃ q, c = Num q ∧ (0 ≤ q)%Qc) obs →
  Num q ∈ obs → (q ≤ Qc_sum obs)%Qc.
Proof.
  induction 1 as [|c obs (q' & -> & Hq') Hobs IH]; [by intros ?%elem_of_nil|].
  cbn [Qc_sum foldr]. fold (Qc_sum obs). intros [[= ->]|Hin]%elem_of_cons.
  - rewrite <-(Qcplus_0_r q') at 1. apply Qcplus_le_mono_l.
    by apply Qc_sum_nonneg.
  - rewrite <-(Qcplus_0_l q). apply Qcplus_le_compat; [done|by apply IH].
Qed.

Lemma row_sum_dominates (cs : list cell) :
  Forall nonneg_cell cs →
  ∃ T, row_sum cs = Num T ∧ (0 ≤ T)%Qc ∧ ∀ q, Num q ∈ cs → (q ≤ T)%Qc.
Proof.
  intros H.
  assert (Forall (λ c, ∃ q, c = Num q ∧ (0 ≤ q)%Qc) (observations cs)) as Hobs.
  { unfold observations. apply Forall_forall. intros c [Hn Hc]%list_elem_of_filter.
    rewrite Forall_forall in H. by destruct (H c Hc) as [->|?]. }
  exists (Qc_sum (observations cs)). unfold row_sum.
  rewrite sum_cells_Qc_sum
    by (eapply Forall_impl; [exact Hobs|]; intros ? (q & -> & _); by eexists).
  split; [reflexivity|]. split; [by apply Qc_sum_nonneg|].
  intros q Hq. apply Qc_sum_dominates; [done|].
  unfold observations. by apply list_elem_of_filter.
Qed.

Section SumwordProperties.

Variable adapter : call → outcome object.

Local Abbreviation sumword := (sumword adapter).

Lemma sumword_calls words period title w :
  calls (sumword words period title w).2
  = calls w ++ [mkCall (reference_words words) period title].
Proof.
  destruct (adapter (mkCall (reference_words words) period title))
    as [[refraw|s|]|e] eqn:E.
  - by rewrite (sumword_run _ _ _ _ _ _ E).
  - unfold_sumword. erewrite try_except_caught.
    2:{ rewrite bind_run.
        rewrite (api_ngram_news_ret adapter (reference_words words) _ _ _ _ E).
        unfold pd.sum_axis1_named. rewrite !bind_run. unfold get_frame at 1.
        erewrite (extend_lookup_at _ _ _ 0%nat) by (simpl; lia || reflexivity).
        reflexivity. }
    reflexivity.
  - by rewrite (sumword_none_run _ _ _ _ _ E).
  - destruct (decide (e = AttributeError)) as [->|Hne].
    + by rewrite (sumword_attribute_error_run _ _ _ _ _ E).
    + unfold_sumword. erewrite try_except_other; [| |exact Hne].
      2:{ rewrite bind_run.
          by rewrite (api_ngram_news_raise adapter (reference_words words) _ _ _ _ E). }
      reflexivity.
Qed.

(** X5.  [sumword] asks the adapter exactly once, with the period and the
    title it was given; the word list of the request is never empty and never
    holds the empty word, and it holds the comma exactly when a word of the
    reference text is empty or is a comma. *)
Theorem sumword_request words period title w :
  ∃ c, calls (sumword words period title w).2 = calls w ++ [c] ∧
       call_period c = period ∧ call_title c = title ∧
       call_words c ≠ [] ∧ (EmptyString ∉ call_words c) ∧
       ("," ∈ call_words c ↔
        (EmptyString ∈ map strip (split_comma words)
         ∨ "," ∈ map strip (split_comma words))).
Proof.
  exists (mkCall (reference_words words) period title).
  split; [apply sumword_calls|]. do 2 (split; [reflexivity|]).
  split; [apply reference_words_not_nil|].
  split; [apply reference_words_no_empty|apply reference_words_sentinel].
Qed.

(** X6.  When the adapter answers with a frame whose values are null or not
    negative, [sumword] returns a series named [tot] with the dates of that
    frame, in their order; the total of each date is a number, not negative,
    and at least every count of the row of that date. *)
Theorem sumword_totals words period title refraw w :
  adapter (mkCall (reference_words words) period title) = Ret (OFrame refraw) →
  cells_of refraw nonneg_cell →
  ∃ r w' st,
    sumword words period title w = (Ret r, w') ∧
    heap w' !! r = Some (OSeries st) ∧
    name st = "tot" ∧
    (values st).*1 = index refraw ∧
    Forall2 (λ (v : Timestamp * cell) (r : row),
               ∃ T, v.2 = Num T ∧ (0 ≤ T)%Qc ∧ ∀ q, Num q ∈ r.2 → (q ≤ T)%Qc)
            (values st) (rows refraw).
Proof.
  intros H Hf. rewrite (sumword_run _ _ _ _ _ _ H).
  eexists _, _, _. split; [reflexivity|].
  split; [at_offset 1%nat|]. split; [reflexivity|]. cbn [values]. split.
  - unfold reference_totals, index. rewrite <-list_fmap_compose.
    by apply list_fmap_ext.
  - unfold reference_totals. apply Forall2_fmap_l, Forall_Forall2_diag.
    eapply Forall_impl; [exact Hf|]. intros r Hr. simpl.
    by apply row_sum_dominates.
Qed.

End SumwordProperties.

(** ** The dates of the frame [ngram] returns *)

Global Instance row_le_total : Total row_le.
Proof. intros r1 r2. unfold row_le. lia. Qed.

Lemma fetched_frame_sorted raw : Sorted Z.le (index (fetched_frame raw)).
Proof.
  unfold index. cbn [fetched_frame rows].
  apply (Sorted_fmap fst row_le Z.le); [by intros r1 r2|].
  apply Sorted_merge_sort, _.
Qed.

Lemma divide_column_index st x g : index (divide_column st x g) = index g.
Proof.
  unfold divide_column, pd.set_column.
  destruct (pd.column_position x (columns g)); [|reflexivity].
  unfold index. cbn [rows]. rewrite <-list_fmap_compose. by apply list_fmap_ext.
Qed.

Lemma divide_columns_index st xs g :
  index (foldl (λ g x, divide_column st x g) g xs) = index g.
Proof.
  revert g. induction xs as [|x xs IH]; intros g; [reflexivity|].
  cbn [foldl]. by rewrite IH, divide_column_index.
Qed.

Section NgramProperties.

Variable adapter : call → outcome object.
Variable series_truediv_frame : Series → DataFrame → outcome object.
Variable set_column_frame : string → DataFrame → DataFrame → outcome DataFrame.

Local Abbreviation ngram := (ngram adapter series_truediv_frame set_column_frame).

(** The run of [ngram] with a reference, with the requests it makes. *)
Lemma ngram_reference_run_calls word mid_date sammenlign title raw refraw w :
  sammenlign ≠ EmptyString →
  adapter (word_call word mid_date title) = Ret (OFrame raw) →
  adapter (mkCall (reference_words sammenlign)
             (mid_date - max_days, mid_date + max_days) title)
  = Ret (OFrame refraw) →
  ∃ w', ngram word mid_date sammenlign title w
        = (Ret (length (heap w) + 2)%nat, w') ∧
        heap w' !! (length (heap w) + 2)%nat
        = Some (OFrame (foldl (λ g x, divide_column
                                        (mkSeries "tot" (reference_totals refraw)) x g)
                              (fetched_frame raw) (columns raw))) ∧
        calls w' = calls w
                   ++ [word_call word mid_date title;
                       mkCall (reference_words sammenlign)
                         (mid_date - max_days, mid_date + max_days) title].
Proof.
  intros Hs H Href. unfold_ngram.
  set (W1 := extend (log_call (word_call word mid_date title) w)
               [OFrame raw; OFrame (frame_fillna 0%Qc raw);
                OFrame (fetched_frame raw)]).
  set (W2 := extend (log_call (mkCall (reference_words sammenlign)
               (mid_date - max_days, mid_date + max_days) title) W1)
               [OFrame refraw; OSeries (mkSeries "tot" (reference_totals refraw))]).
  destruct (divide_columns_run series_truediv_frame set_column_frame
              (length (heap w) + 2)%nat (length (heap W1) + 1)%nat
              (mkSeries "tot" (reference_totals refraw)) (columns raw)
              W2 (fetched_frame raw)) as (w' & Hrun & Hres & _ & Hcalls).
  { apply extend_lookup_old. simpl. at_offset 2%nat. }
  { at_offset 1%nat. }
  { apply Forall_forall. intros x Hx. cbn [fetched_frame columns].
    unfold pd.column_position.
    destruct (list_find (λ y, y = x) (columns raw)) as [p|] eqn:E; [by eexists|].
    apply list_find_None in E. rewrite Forall_forall in E. by destruct (E x). }
  exists w'. split; [|split; [exact Hres|]].
  2:{ rewrite Hcalls. simpl. by rewrite <-(assoc_L (++)). }
  erewrite try_except_ret; [reflexivity|].
  rewrite bind_run, (api_ngram_news_ret _ _ _ _ _ _ H).
  unfold pd.fillna. rewrite !bind_run.
  erewrite get_frame_ret by at_offset 0%nat.
  erewrite (alloc_extend_at _ _ _ (length (heap w) + 1)%nat) by (simpl; lia).
  simpl app.
  unfold pd.sort_index. rewrite !bind_run.
  erewrite get_frame_ret by at_offset 1%nat.
  erewrite (alloc_extend_at _ _ _ (length (heap w) + 2)%nat) by (simpl; lia).
  simpl app.
  unfold pd.index_map_Timestamp. rewrite !bind_run.
  erewrite get_frame_ret by at_offset 2%nat.
  erewrite (store_extend_at _ _ _ 2%nat) by (simpl; lia || reflexivity).
  rewrite decide_True by done. rewrite !bind_run.
  cbn [list_insert insert]. fold (fetched_frame raw). fold W1.
  rewrite (sumword_run _ _ _ _ _ _ Href). fold W2.
  unfold pd.frame_columns. rewrite !bind_run.
  erewrite get_frame_ret by (apply extend_lookup_old; simpl; at_offset 2%nat).
  unfold ret at 1. cbn [fetched_frame columns].
  replace_divide_columns w' Hrun.
  reflexivity.
Qed.


(** X8.  With a reference text that is not empty and an adapter that answers
    both requests with frames, [ngram] asks the adapter exactly twice: first
    for the words, then for the reference words, both times with the period
    [mid_date - 7400] to [mid_date + 7400] days and the same title. *)
Theorem ngram_reference_requests word mid_date sammenlign title raw refraw w :
  sammenlign ≠ EmptyString →
  adapter (word_call word mid_date title) = Ret (OFrame raw) →
  adapter (mkCall (reference_words sammenlign)
             (mid_date - max_days, mid_date + max_days) title)
  = Ret (OFrame refraw) →
  ∃ c1 c2,
    calls (ngram word mid_date sammenlign title w).2 = calls w ++ [c1; c2] ∧
    call_words c1 = word ∧ call_words c2 = reference_words sammenlign ∧
    call_period c1 = (mid_date - 7400, mid_date + 7400) ∧
    call_period c2 = call_period c1 ∧ call_title c2 = call_title c1.
Proof.
  intros Hs H Href.
  destruct (ngram_reference_run_calls word mid_date sammenlign title raw refraw
              w Hs H Href) as (w' & -> & _ & Hcalls).
  eexists _, _. split; [exact Hcalls|]. by repeat split.
Qed.

(** The frame [ngram] returns with a reference. *)
Lemma ngram_reference_frame word mid_date sammenlign title raw refraw w :
  sammenlign ≠ EmptyString →
  adapter (word_call word mid_date title) = Ret (OFrame raw) →
  adapter (mkCall (reference_words sammenlign)
             (mid_date - max_days, mid_date + max_days) title)
  = Ret (OFrame refraw) →
  well_formed raw → NoDup (columns raw) → NoDup (index raw) →
  ∃ r w',
    ngram word mid_date sammenlign title w = (Ret r, w') ∧
    heap w' !! r
    = Some (OFrame (divided_frame (reference_totals refraw) (fetched_frame raw))).
Proof.
  intros Hs H Href Hwf Hcols Hidx.
  destruct (ngram_reference_run_calls word mid_date sammenlign title raw refraw
              w Hs H Href) as (w' & -> & Hres & _).
  eexists _, _. split; [reflexivity|]. rewrite Hres. do 2 f_equal.
  apply (divide_all_columns (mkSeries "tot" (reference_totals refraw))
           (fetched_frame raw)).
  - by apply fetched_frame_well_formed.
  - exact Hcols.
  - by rewrite fetched_frame_index.
Qed.

End NgramProperties.

(** ** Quotients that are not numbers *)

Lemma series_at_absent t (vs : list (Timestamp * cell)) :
  t ∉ vs.*1 → pd.series_at t vs = NaN.
Proof.
  induction vs as [|p vs IH]; [reflexivity|].
  cbn [fmap list_fmap]. intros H. rewrite series_at_cons.
  rewrite decide_False by (intros E; apply H; rewrite E; by left).
  apply IH. intros ?. apply H. by right.
Qed.

Lemma cell_div_nan c : cell_div c NaN = NaN.
Proof. by destruct c. Qed.

Lemma cell_div_zero c q : cell_div c (Num 0%Qc) ≠ Num q.
Proof.
  destruct c as [|s|x]; unfold cell_div; [done..|].
  rewrite decide_True by reflexivity. by destruct (decide _).
Qed.

Lemma reference_totals_labels refraw : (reference_totals refraw).*1 = index refraw.
Proof.
  unfold reference_totals, index. rewrite <-list_fmap_compose.
  by apply list_fmap_ext.
Qed.

Lemma json_cell_no_inf c : no_inf (json_cell c).
Proof. intros b. by destruct c. Qed.

Lemma to_json_finite g : finite_frame (map_cells json_cell g).
Proof.
  unfold finite_frame, map_cells. cbn [rows]. apply Forall_map, Forall_true.
  intros r. simpl. apply Forall_map, Forall_true. intros c. apply json_cell_no_inf.
Qed.

Lemma adjusted_frame_dates today date days smooth f t :
  t ∈ index (adjusted_frame today date days smooth f) →
  t ≤ Timestamp_of_date (date + days - 1).
Proof.
  rewrite adjusted_frame_index. intros [[_ H] _]%list_elem_of_filter.
  unfold window_end, Timestamp_of_date, Timedelta_days in *. lia.
Qed.

Lemma column_at_length j (rs : list row) : length (column_at j rs) = length rs.
Proof. apply length_map. Qed.

Lemma index_length f : length (index f) = length (rows f).
Proof. apply length_fmap. Qed.

Lemma adjusted_frame_integers today date days smooth f :
  cells_of (adjusted_frame today date days smooth f)
           (λ c, ∃ z : Z, c = Num (Qc_of_Z z)).
Proof.
  unfold cells_of, adjusted_frame, map_cells. cbn [rows].
  apply Forall_map, Forall_true. intros r. simpl.
  apply Forall_map, Forall_true. intros c. destruct c; by eexists.
Qed.

Section CallbackProperties.

Variable adapter : call → outcome object.
Variable series_truediv_frame : Series → DataFrame → outcome object.
Variable set_column_frame : string → DataFrame → DataFrame → outcome DataFrame.
Variable list_of_set : list string → list string.
Variable excel_bytes : DataFrame → string.

Local Abbreviation ngram := (ngram adapter series_truediv_frame set_column_frame).
Local Abbreviation update_data :=
  (update_data adapter series_truediv_frame set_column_frame list_of_set).
Local Abbreviation update_chart := (update_chart excel_bytes).

(** X9.  After the division by the reference totals, every value of a date
    that the reference frame does not hold is null, and no value of a date
    whose reference total is 0 is a number (it is null or infinite): the
    division of lines 65-66 has no guard. *)
Theorem ngram_ratio_undefined word mid_date sammenlign title raw refraw w :
  sammenlign ≠ EmptyString →
  adapter (word_call word mid_date title) = Ret (OFrame raw) →
  adapter (mkCall (reference_words sammenlign)
             (mid_date - max_days, mid_date + max_days) title)
  = Ret (OFrame refraw) →
  well_formed raw → NoDup (columns raw) → NoDup (index raw) →
  NoDup (index refraw) →
  ∃ r w' f',
    ngram word mid_date sammenlign title w = (Ret r, w') ∧
    heap w' !! r = Some (OFrame f') ∧
    ∀ t cs, (t, cs) ∈ rows f' →
      (t ∉ index refraw → Forall (λ c, c = NaN) cs) ∧
      (pd.series_at t (reference_totals refraw) = Num 0%Qc →
       Forall (λ c, ∀ q, c ≠ Num q) cs).
Proof.
  intros Hs H Href Hwf Hcols Hidx _.
  destruct (ngram_reference_frame adapter series_truediv_frame set_column_frame
              word mid_date sammenlign title raw refraw w Hs H Href Hwf Hcols Hidx)
    as (r & w' & -> & Hres).
  eexists _, _, _. split; [reflexivity|]. split; [exact Hres|].
  intros t cs Hr. unfold divided_frame in Hr. cbn [rows] in Hr.
  apply list_elem_of_fmap in Hr as (r0 & [= -> ->] & _). split.
  - intros Ht. apply Forall_map, Forall_true. intros c. simpl.
    rewrite series_at_absent by (by rewrite reference_totals_labels).
    apply cell_div_nan.
  - intros ->. apply Forall_map, Forall_true. intros c q. apply cell_div_zero.
Qed.

Lemma ngram_no_reference_calls word mid_date title w :
  calls (ngram word mid_date EmptyString title w).2
  = calls w ++ [word_call word mid_date title].
Proof.
  destruct (adapter (word_call word mid_date title)) as [[raw|s|]|e] eqn:E.
  - by rewrite (ngram_raw_run _ _ _ _ _ _ _ _ E).
  - by rewrite (ngram_not_frame_run _ _ _ _ _ _ _ _ _ E) by done.
  - by rewrite (ngram_not_frame_run _ _ _ _ _ _ _ _ _ E) by done.
  - destruct (decide (e = AttributeError)) as [->|Hne].
    + by rewrite (ngram_attribute_error_run _ _ _ _ _ _ _ _ E).
    + by rewrite (ngram_other_error_run _ _ _ _ _ _ _ _ _ E Hne).
Qed.

Lemma to_json_calls r w : calls (to_json r w).2 = calls w.
Proof.
  unfold to_json. rewrite bind_run. unfold get_frame.
  by destruct (heap w !! r) as [[| |]|].
Qed.

(** X10.  [update_data] asks the adapter exactly once, for at most 30 words
    (the first 30 of the enumeration of the set of stripped words), with the
    period [mid_date - 7400] to [mid_date + 7400] days whatever the period
    size is; the title [--ingen--] is never sent, every other title is sent as
    it is. *)
Theorem update_data_request words avisnavn mid_date period_size w :
  ∃ c,
    calls (update_data words avisnavn mid_date period_size w).2 = calls w ++ [c] ∧
    (length (call_words c) ≤ 30)%nat ∧
    call_words c = take 30 (list_of_set (map strip (split_comma words))) ∧
    call_period c = (mid_date - 7400, mid_date + 7400) ∧
    call_title c ≠ Some "--ingen--" ∧
    (avisnavn ≠ Some "--ingen--" → call_title c = avisnavn).
Proof.
  eexists. split.
  - unfold_update_data. rewrite bind_run.
    pose proof (ngram_no_reference_calls
                  (take 30 (list_of_set (map strip (split_comma words)))) mid_date
                  (if decide (avisnavn = Some "--ingen--") then None else avisnavn)
                  w) as Hcalls.
    destruct (ngram _ _ _ _ w) as [[r|e] w1]; simpl in Hcalls.
    + by rewrite to_json_calls.
    + exact Hcalls.
  - cbn [call_words call_period call_title word_call].
    split; [rewrite length_take; lia|]. split; [reflexivity|].
    split; [reflexivity|]. split.
    + by destruct (decide (avisnavn = Some "--ingen--")).
    + intros Hne. by rewrite decide_False.
Qed.

Lemma update_chart_full_run j mid_date period_size smooth_slider theme alpha
    width plot_type n_clicks words avisnavn filnavn w :
  finite_frame j → 1 ≤ default 3 smooth_slider →
  let p := default max_days period_size in
  let out := adjusted_frame (now w) mid_date p (default 3 smooth_slider) j in
  let pub := match avisnavn with
             | Some t => if decide (t = EmptyString) then "Alle" else t
             | None => "Alle"
             end in
  ∃ w',
    update_chart (Some j) mid_date period_size smooth_slider theme alpha width
      plot_type n_clicks words avisnavn filnavn w
    = (Ret (mkFigure (traces out plot_type alpha width) (default "plotly" theme) 500,
            Summary words pub (mid_date - p) (mid_date + p),
            if decide (n_clicks > 0)
            then Some (mkDownload (excel_bytes out) filnavn) else None), w').
Proof.
  intros Hf Hs p out pub. unfold_update_chart.
  rewrite bind_run, alloc_run, bind_run.
  rewrite (adjust_returns _ _ j) by (done || at_offset 0%nat).
  rewrite bind_run.
  erewrite get_frame_ret by at_offset 4%nat.
  destruct (decide (n_clicks > 0)).
  - unfold to_excel. rewrite !bind_run.
    erewrite get_frame_ret by at_offset 4%nat.
    eexists. reflexivity.
  - eexists. reflexivity.
Qed.




End CallbackProperties.

(** ** The sidebar *)

(** X14.  After the page load and [k] clicks on the menu button, the callback
    running once for each value of the click counter, the sidebar is as it was
    when [k] is even and toggled when [k] is odd. *)
Theorem sidebar_after_clicks (k : nat) (is_open : bool) :
  sidebar_after k is_open = if Nat.even k then is_open else negb is_open.
Proof.
  induction k as [|k IH]; [reflexivity|].
  cbn [sidebar_after]. rewrite IH. unfold toggle_sidebar.
  rewrite decide_False by lia. rewrite Nat.even_succ, <-Nat.negb_even.
  destruct (Nat.even k), is_open; reflexivity.
Qed.

(** ** The year picker *)

Lemma days_in_month_other_year y y' m :
  m ≠ 2 → days_in_month y' m = days_in_month y m.
Proof.
  intros H. unfold days_in_month. by rewrite (proj2 (Z.eqb_neq m 2) H).
Qed.

Lemma days_in_february y : 28 ≤ days_in_month y 2 ≤ 29.
Proof. unfold days_in_month. simpl. destruct (is_leap y); lia. Qed.

(** X15.  For a picked year between 1 and 9999 and a date text whose part before
    the first [T] parses to a valid date, [update_date_from_year] returns that
    date moved to the picked year, which is again a valid date, unless the
    date is 29 February and the picked year is not a leap year: then it raises
    [ValueError]. *)
Theorem update_date_from_year_result strptime (y : Z) (current_date : string)
    (c : civil) :
  strptime (take_until (Ascii.ascii_of_nat 84) current_date) = Ret c →
  valid_civil c → 1 ≤ y ≤ 9999 →
  if decide (month c = 2 ∧ day c = 29 ∧ is_leap y = false)
  then update_date_from_year strptime (Some y) current_date = Raise ValueError
  else update_date_from_year strptime (Some y) current_date
       = Ret (DateTime (mkCivil y (month c) (day c)))
       ∧ valid_civil (mkCivil y (month c) (day c)).
Proof.
  intros Hparse (Hy & Hm & Hd) Hy'. unfold update_date_from_year, replace_year.
  rewrite Hparse.
  destruct (decide (month c = 2 ∧ day c = 29 ∧ is_leap y = false))
    as [(Em & Ed & El)|Hn].
  - rewrite decide_False; [reflexivity|].
    unfold valid_civil. simpl. rewrite Em, Ed.
    unfold days_in_month. simpl. rewrite El. lia.
  - assert (valid_civil (mkCivil y (month c) (day c))) as Hv.
    { unfold valid_civil. simpl. split; [done|]. split; [done|].
      destruct (decide (month c = 2)) as [Em|Em].
      - rewrite Em in *. pose proof (days_in_february (year c)).
        unfold days_in_month in *. simpl in *.
        destruct (is_leap y) eqn:El; [lia|].
        assert (day c ≠ 29) by (intros ?; by apply Hn). lia.
      - by rewrite (days_in_month_other_year (year c) y). }
    by rewrite decide_True.
Qed.

(** ** The search URL *)

Lemma append_assoc (a b c : string) : (a +:+ b) +:+ c = a +:+ (b +:+ c).
Proof.
  induction a as [|x a IH]; [reflexivity|].
  change (String x ((a +:+ b) +:+ c) = String x (a +:+ (b +:+ c))).
  by rewrite IH.
Qed.

Lemma count_char_app c (a b : string) :
  count_char c (a +:+ b) = (count_char c a + count_char c b)%nat.
Proof.
  induction a as [|x a IH]; [reflexivity|].
  change (((if Ascii.eqb c x then 1 else 0) + count_char c (a +:+ b))%nat
          = ((if Ascii.eqb c x then 1 else 0) + count_char c a + count_char c b)%nat).
  rewrite IH. lia.
Qed.

Lemma take_until_app c (a b : string) :
  count_char c a = 0%nat → take_until c (a +:+ String c b) = a.
Proof.
  induction a as [|x a IH].
  - intros _. simpl. by rewrite Ascii.eqb_refl.
  - change (((if Ascii.eqb c x then 1 else 0) + count_char c a)%nat = 0%nat →
            (if Ascii.eqb c x then EmptyString
             else String x (take_until c (a +:+ String c b))) = String x a).
    destruct (Ascii.eqb c x); [done|]. intros H. by rewrite IH.
Qed.

Lemma quote_plus_char_quoted x :
  string_forall quoted_char (quote_plus_char x) = true.
Proof. destruct x as [[] [] [] [] [] [] [] []]; reflexivity. Qed.

Lemma count_char_forall (P : Ascii.ascii → bool) c s :
  string_forall P s = true → P c = false → count_char c s = 0%nat.
Proof.
  intros Hs Hc. induction s as [|x s IH]; [reflexivity|].
  cbn [string_forall] in Hs. apply andb_prop in Hs as [Hx Hs].
  cbn [count_char]. rewrite (IH Hs).
  destruct (Ascii.eqb c x) eqn:E; [|reflexivity].
  apply Ascii.eqb_eq in E. congruence.
Qed.

Lemma count_char_quote_plus_char c x :
  quoted_char c = false → count_char c (quote_plus_char x) = 0%nat.
Proof.
  intros H. apply (count_char_forall quoted_char); [|exact H].
  apply quote_plus_char_quoted.
Qed.

Lemma count_char_quote_plus c s :
  quoted_char c = false → count_char c (quote_plus s) = 0%nat.
Proof.
  intros H. induction s as [|x s IH]; [reflexivity|].
  cbn [quote_plus]. by rewrite count_char_app, IH, count_char_quote_plus_char.
Qed.

Lemma unquote_plus_char x (t : string) :
  unquote_plus (quote_plus_char x +:+ t) = String x (unquote_plus t).
Proof. destruct x as [[] [] [] [] [] [] [] []]; reflexivity. Qed.

Lemma unquote_quote_plus s : unquote_plus (quote_plus s) = s.
Proof.
  induction s as [|x s IH]; [reflexivity|].
  cbn [quote_plus]. by rewrite unquote_plus_char, IH.
Qed.

Lemma quote_plus_digits (c : civil) : quote_plus (strftime_Ymd c) = strftime_Ymd c.
Proof.
  assert (∀ n, is_unreserved (digit n) = true) as Hd.
  { intros n. unfold digit.
    assert (0 ≤ n mod 10 < 10) as Hn by (apply Z.mod_pos_bound; lia).
    assert (Z.to_nat (n mod 10) < 10)%nat as Hlt by lia.
    destruct (Z.to_nat (n mod 10)) as [|[|[|[|[|[|[|[|[|[|k]]]]]]]]]];
      try reflexivity. lia. }
  unfold strftime_Ymd. cbn [quote_plus]. unfold quote_plus_char.
  rewrite !Hd. reflexivity.
Qed.

(** X16.  The search name can be read back from the URL of [make_nb_query]:
    decoding the text between [q=] and the next [&] gives the name, whatever
    characters the name holds. *)
Theorem make_nb_query_name_round_trip name start_date end_date :
  query_name (make_nb_query name start_date end_date) = name.
Proof.
  unfold query_name, make_nb_query. cbn [urlencode].
  change (quote_plus "q") with "q".
  match goal with
  | |- unquote_plus (take_until _ (drop_string 44 ?u)) = _ =>
      change (drop_string 44 u)
        with (quote_plus name +:+ String (Ascii.ascii_of_nat 38)
                (quote_plus "fromDate" +:+ "=" +:+ quote_plus (strftime_Ymd start_date)
                 +:+ "&" +:+ quote_plus "toDate" +:+ "="
                 +:+ quote_plus (strftime_Ymd end_date)))
  end.
  rewrite take_until_app by (by apply count_char_quote_plus).
  apply unquote_quote_plus.
Qed.

(** X17.  A character that is neither a letter, a digit, one of [_.-~], [+] nor
    [%] occurs in the URL of [make_nb_query] exactly as often as in the
    fixed text [https://www.nb.no/search?mediatype=aviser&q=&fromDate=&toDate=]:
    the name and the dates add no [&], [=], [?], [#], [/] or space. *)
Theorem make_nb_query_reserved_characters c name start_date end_date :
  quoted_char c = false →
  count_char c (make_nb_query name start_date end_date)
  = count_char c "https://www.nb.no/search?mediatype=aviser&q=&fromDate=&toDate=".
Proof.
  intros Hc. unfold make_nb_query. cbn [urlencode].
  rewrite !count_char_app.
  rewrite !(count_char_quote_plus c name), !(count_char_quote_plus c (strftime_Ymd _))
    by done.
  simpl. lia.
Qed.


(** * The further statements on concrete inputs *)

Ltac each_cell tac :=
  unfold cells_of; cbn [rows snd];
  repeat first [apply Forall_nil_2 | apply Forall_cons_2];
  try (by left); right; eexists; (split; [reflexivity|tac]).

Lemma well_formed_week : well_formed week.
Proof. repeat constructor. Qed.


Lemma week_between : cells_of week (cell_between 0%Qc (Qc_of_Z 100)).
Proof.
  each_cell ltac:(split; compute_done).
Qed.


Lemma ratios_below : cells_of ratios (cell_below 0%Qc 1%Qc).
Proof.
  each_cell ltac:(split; compute_done).
Qed.



Lemma two_days_nonneg : cells_of two_days nonneg_cell.
Proof.
  each_cell ltac:(compute_done).
Qed.

(** The statement of X6 for the adapter that answers with [two_days]. *)
Lemma sumword_totals_witness :
  ∃ r w' st,
    sumword (adapter_const two_days) "frihet" (0, 1) None empty_world = (Ret r, w') ∧
    heap w' !! r = Some (OSeries st) ∧
    name st = "tot" ∧
    (values st).*1 = index two_days ∧
    Forall2 (λ (v : Timestamp * cell) (r : row),
               ∃ T, v.2 = Num T ∧ (0 ≤ T)%Qc ∧ ∀ q, Num q ∈ r.2 → (q ≤ T)%Qc)
            (values st) (rows two_days).
Proof.
  apply (sumword_totals (adapter_const two_days) "frihet" (0, 1) None two_days);
    [reflexivity|exact two_days_nonneg].
Defined.


(** The statement of X8 for the adapter that answers with [week]. *)
Lemma ngram_reference_requests_witness :
  ∃ c1 c2,
    calls (ngram (adapter_const week) no_truediv no_set_column ["frihet"]
             (days_from_civil 2020 7 1) "og, men" None empty_world).2
    = calls empty_world ++ [c1; c2] ∧
    call_words c1 = ["frihet"] ∧ call_words c2 = reference_words "og, men" ∧
    call_period c1 = (days_from_civil 2020 7 1 - 7400, days_from_civil 2020 7 1 + 7400) ∧
    call_period c2 = call_period c1 ∧ call_title c2 = call_title c1.
Proof.
  apply (ngram_reference_requests (adapter_const week) no_truediv no_set_column
           ["frihet"] (days_from_civil 2020 7 1) "og, men" None week week);
    [discriminate|reflexivity|reflexivity].
Defined.

(** The statement of X9 for the adapter that answers with [zero_day]. *)
Lemma ngram_ratio_undefined_witness :
  ∃ r w' f',
    ngram (adapter_const zero_day) no_truediv no_set_column ["frihet"]
      (days_from_civil 2020 7 1) "og" None empty_world = (Ret r, w') ∧
    heap w' !! r = Some (OFrame f') ∧
    ∀ t cs, (t, cs) ∈ rows f' →
      (t ∉ index zero_day → Forall (λ c, c = NaN) cs) ∧
      (pd.series_at t (reference_totals zero_day) = Num 0%Qc →
       Forall (λ c, ∀ q, c ≠ Num q) cs).
Proof.
  apply (ngram_ratio_undefined (adapter_const zero_day) no_truediv no_set_column
           ["frihet"] (days_from_civil 2020 7 1) "og" None zero_day zero_day);
    [discriminate|reflexivity|reflexivity|repeat constructor|compute_done
    |compute_done|compute_done].
Defined.




(** The statement of X15 for 29 February 2024 and for 1 July 2020, both moved
    to 2023. *)
Lemma update_date_from_year_result_witness :
  update_date_from_year strptime_iso (Some 2023) "2024-02-29T00:00:00"
  = Raise ValueError ∧
  update_date_from_year strptime_iso (Some 2023) "2020-07-01"
  = Ret (DateTime (mkCivil 2023 7 1)).
Proof.
  split.
  - apply (update_date_from_year_result strptime_iso 2023 "2024-02-29T00:00:00"
             (mkCivil 2024 2 29)); [reflexivity|compute_done|lia].
  - apply (update_date_from_year_result strptime_iso 2023 "2020-07-01"
             (mkCivil 2020 7 1)); [reflexivity|compute_done|lia].
Defined.

(** The statement of X17 for the character [&] and a name that holds one. *)
Lemma make_nb_query_reserved_characters_witness :
  count_char (Ascii.ascii_of_nat 38)
    (make_nb_query "frihet & likhet" (mkCivil 2020 7 1) (mkCivil 2021 7 1))
  = 3%nat.
Proof.
  apply (make_nb_query_reserved_characters (Ascii.ascii_of_nat 38)
           "frihet & likhet" (mkCivil 2020 7 1) (mkCivil 2021 7 1)).
  reflexivity.
Defined.
